(** * AzureMistralLoader: the OCR document loader of
    [backend/open_webui/retrieval/loaders/azure_mistral.py]

    A shallow embedding of the loader class and the proofs of the properties
    its specification states.

    The class reads a file, posts it to a remote OCR endpoint and maps the
    JSON answer to a list of documents.  The embedding follows the Python text:
    - a Python [str] is a list of Unicode code points, so that [len] and
      [strip] agree with CPython on every string;
    - a value decoded from JSON is a [pyval]; objects are finite maps;
    - an exception is a value of type [exn], a computation that may raise
      returns a [result];
    - the file system and the network are a [world] of oracles; every call to
      one is recorded as an [event], so that the order and the number of the
      calls can be stated;
    - [str] applied to a value that is not a string is a parameter, [py_str]:
      the loader only trims its result and tests it for emptiness;
    - [os.path] is [posixpath], and [raise_for_status] is the method of the
      requests library.

    Logging and the time measurements of [load] do not influence what the
    methods return and are left out.  Exceptions are the subclasses of
    [Exception]; an asynchronous [BaseException] such as [KeyboardInterrupt]
    is outside the embedding. *)

From Stdlib Require Import ZArith NArith List String Ascii PrimFloat DecimalString Lia.
From Stdlib.Strings Require Import Byte.
From stdpp Require Import base option list gmap fin_maps.

Set Default Proof Using "Type".
#[local] Set Warnings "-register-all".
#[local] Open Scope Z_scope.

(** ** Strings *)

(** A Python string: its code points, in order. *)
Definition pystr : Type := list N.

(** The string a literal of the source denotes (the literals are ASCII). *)
Definition lit (s : string) : pystr := N_of_ascii <$> list_ascii_of_string s.

(** The decimal text of an integer, as [str(n)] and [f"{n}"] give it. *)
Definition str_of_Z (z : Z) : pystr := lit (NilZero.string_of_int (Z.to_int z)).

Module unicode.

(** [str.isspace] on one code point: the characters CPython's
    [_PyUnicode_IsWhitespace] lists, which are those [str.strip] removes. *)
Definition isspace (c : N) : bool :=
  ((0x09 <=? c) && (c <=? 0x0D) || (0x1C <=? c) && (c <=? 0x20)
   || (c =? 0x85) || (c =? 0xA0) || (c =? 0x1680)
   || (0x2000 <=? c) && (c <=? 0x200A)
   || (c =? 0x2028) || (c =? 0x2029) || (c =? 0x202F) || (c =? 0x205F)
   || (c =? 0x3000))%N.

End unicode.

Section Strip.
(** The characters to remove. *)
Variable drop : N → bool.

(** [s.lstrip(chars)]: the longest prefix of dropped characters is removed. *)
Fixpoint lstrip_by (s : pystr) : pystr :=
  match s with
  | [] => []
  | c :: s' => if drop c then lstrip_by s' else s
  end.

(** [s.rstrip(chars)]: the same from the right end. *)
Definition rstrip_by (s : pystr) : pystr := reverse (lstrip_by (reverse s)).

(** [s.strip(chars)]: both ends. *)
Definition strip_by (s : pystr) : pystr := rstrip_by (lstrip_by s).

End Strip.

(** [s.strip()], without argument: white space is removed at both ends. *)
Definition strip (s : pystr) : pystr := strip_by unicode.isspace s.

Definition slash : N := 0x2F%N.

(** [s.rstrip("/")] *)
Definition rstrip_slash (s : pystr) : pystr := rstrip_by (λ c, (c =? slash)%N) s.

Module posixpath.

(** [s.rfind(c)]: the index of the last occurrence of [c], -1 without one. *)
Fixpoint rfind (c : N) (s : pystr) : Z :=
  match s with
  | [] => -1
  | x :: s' =>
      let r := rfind c s' in
      if 0 <=? r then r + 1 else if (x =? c)%N then 0 else -1
  end.

(** [os.path.basename(p)] on a POSIX system:
    [i = p.rfind('/') + 1; return p[i:]]. *)
Definition basename (p : pystr) : pystr :=
  let i := rfind slash p + 1 in
  drop (Z.to_nat i) p.

End posixpath.

(** ** Values

    What [json.loads] can return, which is also what the metadata of a
    document holds: [None], booleans, integers, floats, strings, lists and
    dictionaries with string keys. *)
Inductive pyval : Type :=
| PNone
| PBool (b : bool)
| PInt (z : Z)
| PFloat (f : float)
| PStr (s : pystr)
| PList (l : list pyval)
| PDict (d : gmap pystr pyval).

(** ** Exceptions and results *)

Inductive exn_class : Type :=
| ValueError
| FileNotFoundError
| AttributeError
| TypeError
| HTTPError
| OtherException (name : string).

(** An exception object: its class and [str(e)], the text of its message. *)
Record exn : Type := Exn { exn_type : exn_class; exn_str : pystr }.

(** The outcome of a computation that may raise. *)
Inductive result (A : Type) : Type :=
| Ok (a : A)
| Raise (e : exn).
Arguments Ok {A} a.
Arguments Raise {A} e.

#[global] Instance result_ret : MRet result := λ A a, Ok a.
#[global] Instance result_bind : MBind result := λ A B f m,
  match m with
  | Ok a => f a
  | Raise e => Raise e
  end.

(** ** The builtins the loader uses *)
Module Py.

(** [type(v).__name__] *)
Definition type_name (v : pyval) : pystr :=
  match v with
  | PNone => lit "NoneType"
  | PBool _ => lit "bool"
  | PInt _ => lit "int"
  | PFloat _ => lit "float"
  | PStr _ => lit "str"
  | PList _ => lit "list"
  | PDict _ => lit "dict"
  end.

(** Truth value testing, as [not v] and [if v] use it. *)
Definition truthy (v : pyval) : bool :=
  match v with
  | PNone => false
  | PBool b => b
  | PInt z => negb (z =? 0)
  | PFloat f => negb (PrimFloat.eqb f 0%float)
  | PStr s => negb (bool_decide (s = []))
  | PList l => negb (bool_decide (length l = 0%nat))
  | PDict d => negb (bool_decide (size d = 0%nat))
  end.

Definition is_none (v : pyval) : bool :=
  match v with PNone => true | _ => false end.

(** [v.get(key)]: the value at [key] of a dictionary, [None] without one;
    on a value that is no dictionary the attribute lookup fails. *)
Definition get (v : pyval) (key : pystr) : result pyval :=
  match v with
  | PDict d => Ok (default PNone (d !! key))
  | _ => Raise (Exn AttributeError
             (lit "'" ++ type_name v ++ lit "' object has no attribute 'get'"))
  end.

(** [len(v)] *)
Definition len (v : pyval) : result Z :=
  match v with
  | PStr s => Ok (Z.of_nat (length s))
  | PList l => Ok (Z.of_nat (length l))
  | PDict d => Ok (Z.of_nat (size d))
  | _ => Raise (Exn TypeError
             (lit "object of type '" ++ type_name v ++ lit "' has no len()"))
  end.

(** The items a [for] loop over [v] visits: the elements of a list, the
    characters of a string, the keys of a dictionary (all of them strings;
    the loader fails on the first it meets, so that their order does not
    show). *)
Definition iter (v : pyval) : result (list pyval) :=
  match v with
  | PList l => Ok l
  | PStr s => Ok ((λ c, PStr [c]) <$> s)
  | PDict d => Ok ((λ kv, PStr kv.1) <$> map_to_list d)
  | _ => Raise (Exn TypeError
             (lit "'" ++ type_name v ++ lit "' object is not iterable"))
  end.

(** [v + 1] *)
Definition add_one (v : pyval) : result pyval :=
  match v with
  | PInt z => Ok (PInt (z + 1))
  | PBool b => Ok (PInt (Z.b2z b + 1))
  | PFloat f => Ok (PFloat (f + 1)%float)
  | PStr _ | PList _ =>
      Raise (Exn TypeError
               (lit "can only concatenate " ++ type_name v ++ lit " (not "
                ++ [0x22%N] ++ lit "int" ++ [0x22%N] ++ lit ") to " ++ type_name v))
  | PNone | PDict _ =>
      Raise (Exn TypeError
               (lit "unsupported operand type(s) for +: '" ++ type_name v
                ++ lit "' and 'int'"))
  end.

End Py.

Module base64.

Definition alphabet : pystr :=
  lit "ABCDEFGHIJKLMNOPQRSTUVWXYZabcdefghijklmnopqrstuvwxyz0123456789+/".

Definition digit (n : N) : N := default 0%N (alphabet !! N.to_nat n).

Definition pad : N := 0x3D%N.

(** The four digits of a group of 24 bits. *)
Definition group (n : N) : pystr :=
  [digit (n / 262144); digit ((n / 4096) mod 64);
   digit ((n / 64) mod 64); digit (n mod 64)]%N.

(** [base64.b64encode(bs).decode("utf-8")] *)
Fixpoint b64encode (bs : list byte) : pystr :=
  match bs with
  | [] => []
  | [a] => take 2 (group (Byte.to_N a * 65536)) ++ [pad; pad]
  | [a; b] => take 3 (group (Byte.to_N a * 65536 + Byte.to_N b * 256)) ++ [pad]
  | a :: b :: c :: rest =>
      group (Byte.to_N a * 65536 + Byte.to_N b * 256 + Byte.to_N c)
      ++ b64encode rest
  end.

End base64.

(** ** The file system and the network *)

(** What [requests.post(url, headers=, json=, timeout=)] sends. *)
Record request : Type := Request {
  req_url : pystr;
  req_headers : gmap pystr pystr;
  req_json : pyval;
  req_timeout : Z;
}.

(** What it returns: the status line, the final URL, and what [resp.json()]
    gives for the body, a decoded value or the decoder's exception. *)
Record response : Type := Response {
  status_code : Z;
  reason : pystr;
  url : pystr;
  json : result pyval;
}.

(** The exception [raise_for_status] raises for a status from 400 to 599. *)
Definition http_error (resp : response) : exn :=
  let kind :=
    if status_code resp <? 500 then lit " Client Error: "
    else lit " Server Error: " in
  Exn HTTPError
    (str_of_Z (status_code resp) ++ kind ++ reason resp
     ++ lit " for url: " ++ url resp).

(** [resp.raise_for_status()] of the requests library: an [HTTPError] for a
    status from 400 to 499 (client error) or from 500 to 599 (server error),
    nothing for any other status. *)
Definition raise_for_status (resp : response) : result unit :=
  if (400 <=? status_code resp) && (status_code resp <? 500) then
    Raise (http_error resp)
  else if (500 <=? status_code resp) && (status_code resp <? 600) then
    Raise (http_error resp)
  else Ok ().

(** The environment of one call: what the file system and the server answer.
    [requests_post] raises for a connection failure or a timeout. *)
Record world : Type := World {
  os_path_exists : pystr → bool;
  open_read : pystr → result (list byte);
  requests_post : request → result response;
}.

(** The calls made to the environment, oldest first. *)
Inductive event : Type :=
| PathExists (path : pystr)
| FileRead (path : pystr)
| HttpPost (req : request).

Definition is_post (ev : event) : bool :=
  match ev with HttpPost _ => true | _ => false end.

(** A method body: it extends the log of events and returns or raises. *)
Definition io (A : Type) : Type := list event → result A * list event.

#[global] Instance io_ret : MRet io := λ A a log, (Ok a, log).
#[global] Instance io_bind : MBind io := λ A B f m log,
  match m log with
  | (Ok a, log') => f a log'
  | (Raise e, log') => (Raise e, log')
  end.

Definition raise {A} (e : exn) : io A := λ log, (Raise e, log).

(** A pure step inside a method. *)
Definition lift {A} (r : result A) : io A := λ log, (r, log).

(** [try: body except Exception as e: handler(e)] *)
Definition try_except {A} (body : io A) (handler : exn → io A) : io A :=
  λ log,
    match body log with
    | (Ok a, log') => (Ok a, log')
    | (Raise e, log') => handler e log'
    end.

Definition path_exists (w : world) (path : pystr) : io bool :=
  λ log, (Ok (os_path_exists w path), log ++ [PathExists path]).

Definition read_bytes (w : world) (path : pystr) : io (list byte) :=
  λ log, (open_read w path, log ++ [FileRead path]).

Definition post (w : world) (req : request) : io response :=
  λ log, (requests_post w req, log ++ [HttpPost req]).

(** Running a method from an empty log. *)
Definition run {A} (m : io A) : result A := (m []).1.
Definition trace {A} (m : io A) : list event := (m []).2.

(** ** The loader *)

(** [langchain_core.documents.Document] *)
Record Document : Type := mkDocument {
  page_content : pystr;
  metadata : gmap pystr pyval;
}.

(** The attributes [__init__] sets. *)
Record AzureMistralLoader : Type := mkLoader {
  api_key : pystr;
  endpoint : pystr;
  file_path : pystr;
  model : pystr;
  timeout : Z;
  include_image_base64 : bool;
  headers : gmap pystr pystr;
}.

(** [AzureMistralLoader.__init__]; an optional argument left out is [None]
    here and takes the default of the signature. *)
Definition __init__ (w : world) (api_key endpoint file_path : pystr)
    (model : option pystr) (timeout : option Z)
    (include_image_base64 : option bool) : io AzureMistralLoader :=
  if bool_decide (api_key = []) then
    raise (Exn ValueError (lit "API key cannot be empty."))
  else if bool_decide (endpoint = []) then
    raise (Exn ValueError (lit "Azure Mistral OCR endpoint cannot be empty."))
  else
    found ← path_exists w file_path;
    if negb found then
      raise (Exn FileNotFoundError (lit "File not found at " ++ file_path))
    else
      mret {|
        api_key := api_key;
        endpoint := rstrip_slash endpoint;
        file_path := file_path;
        model := default (lit "mistral-document-ai-2505") model;
        timeout := default 300 timeout;
        include_image_base64 := default false include_image_base64;
        headers :=
          {[ lit "Authorization" := lit "Bearer " ++ api_key;
             lit "Content-Type" := lit "application/json";
             lit "Accept" := lit "application/json";
             lit "User-Agent" := lit "OpenWebUI-AzureMistralLoader/1.0" ]};
      |}.

Section Loader.

(** [str(v)] for a value [v] that is not a string: the text CPython prints
    for a number, a boolean, a list or a dictionary. *)
Variable py_str : pyval → pystr.

Variable self : AzureMistralLoader.

(** The placeholder for a response without pages. *)
Definition no_pages_document : Document :=
  {| page_content := lit "No text content found";
     metadata :=
       {[ lit "error" := PStr (lit "no_pages");
          lit "file_name" := PStr (posixpath.basename (file_path self)) ]} |}.

(** The placeholder for a response of which no page was kept. *)
Definition no_valid_pages_document (total_pages : Z) : Document :=
  {| page_content := lit "No valid text content found in document";
     metadata :=
       {[ lit "error" := PStr (lit "no_valid_pages");
          lit "total_pages" := PInt total_pages;
          lit "file_name" := PStr (posixpath.basename (file_path self)) ]} |}.

(** The placeholder [load] returns for the exception [e]. *)
Definition processing_failed_document (e : exn) : Document :=
  {| page_content := lit "Error during processing: " ++ exn_str e;
     metadata :=
       {[ lit "error" := PStr (lit "processing_failed");
          lit "file_name" := PStr (posixpath.basename (file_path self)) ]} |}.

(** The document of a page that is kept. *)
Definition page_document (cleaned_content : pystr) (page_index page_label : pyval)
    (total_pages : Z) : Document :=
  {| page_content := cleaned_content;
     metadata :=
       {[ lit "page" := page_index;
          lit "page_label" := page_label;
          lit "total_pages" := PInt total_pages;
          lit "file_name" := PStr (posixpath.basename (file_path self));
          lit "processing_engine" := PStr (lit "mistral-ocr-azure");
          lit "content_length" := PInt (Z.of_nat (length cleaned_content)) ]} |}.

(** [page_content.strip() if isinstance(page_content, str)
     else str(page_content).strip()] *)
Definition stripped (page_content : pyval) : pystr :=
  match page_content with
  | PStr s => strip s
  | _ => strip (py_str page_content)
  end.

(** The body of the loop of [_process_results] for one entry of [pages]:
    [None] where the source says [continue], the document it appends
    otherwise. *)
Definition process_page (total_pages : Z) (page_data : pyval)
    : result (option Document) :=
  page_content ← Py.get page_data (lit "markdown");
  page_index ← Py.get page_data (lit "index");
  if Py.is_none page_content || Py.is_none page_index then mret None
  else
    let cleaned_content := stripped page_content in
    if bool_decide (cleaned_content = []) then mret None
    else
      page_label ← Py.add_one page_index;
      mret (Some (page_document cleaned_content page_index page_label total_pages)).

(** The loop: [documents] is the list built so far. *)
Fixpoint for_pages (total_pages : Z) (pages : list pyval)
    (documents : list Document) : result (list Document) :=
  match pages with
  | [] => Ok documents
  | page_data :: rest =>
      match process_page total_pages page_data with
      | Raise e => Raise e
      | Ok None => for_pages total_pages rest documents
      | Ok (Some doc) => for_pages total_pages rest (documents ++ [doc])
      end
  end.

(** [AzureMistralLoader._process_results] *)
Definition _process_results (ocr_response : pyval) : result (list Document) :=
  pages_data ← Py.get ocr_response (lit "pages");
  if negb (Py.truthy pages_data) then mret [no_pages_document]
  else
    total_pages ← Py.len pages_data;
    pages ← Py.iter pages_data;
    documents ← for_pages total_pages pages [];
    if bool_decide (documents = []) then
      mret [no_valid_pages_document total_pages]
    else mret documents.

(** The request [load] sends for the bytes of the file. *)
Definition ocr_request (file_bytes : list byte) : request :=
  let b64 := base64.b64encode file_bytes in
  let data_url := lit "data:application/pdf;base64," ++ b64 in
  let payload :=
    PDict {[ lit "model" := PStr (model self);
             lit "document" :=
               PDict {[ lit "type" := PStr (lit "document_url");
                        lit "document_url" := PStr data_url ]};
             lit "include_image_base64" := PBool (include_image_base64 self) ]} in
  {| req_url := endpoint self ++ lit "/providers/mistral/azure/ocr";
     req_headers := headers self;
     req_json := payload;
     req_timeout := timeout self |}.

(** The [try] block of [load]. *)
Definition load_body (w : world) : io (list Document) :=
  file_bytes ← read_bytes w (file_path self);
  resp ← post w (ocr_request file_bytes);
  _ ← lift (raise_for_status resp);
  ocr_response ← lift (json resp);
  docs ← lift (_process_results ocr_response);
  mret docs.

(** [AzureMistralLoader.load] *)
Definition load (w : world) : io (list Document) :=
  try_except (load_body w)
    (λ e, mret [processing_failed_document e]).

End Loader.

(** ** Vocabulary of the properties *)

(** A placeholder is a document whose metadata has the key [error]. *)
Definition is_placeholder (doc : Document) : bool :=
  bool_decide (is_Some (metadata doc !! lit "error")).

(** [e.get(key)] is [None]: the key is missing or bound to [null]. *)
Definition absent (e : gmap pystr pyval) (key : pystr) : Prop :=
  e !! key = None ∨ e !! key = Some PNone.

(** No white space at either end. *)
Definition trimmed (s : pystr) : Prop :=
  (∀ c, head s = Some c → unicode.isspace c = false)
  ∧ (∀ c, last s = Some c → unicode.isspace c = false).

(** The number of requests a log records. *)
Definition posts (log : list event) : nat := length (filter (λ ev, is_post ev = true) log).

(** The document the loop appends for an entry with text [md] and index
    [idx]. *)
Definition is_page_document (py_str : pyval → pystr) (self : AzureMistralLoader)
    (doc : Document) : Prop :=
  ∃ md idx label total,
    doc = page_document self (stripped py_str md) idx label total
    ∧ stripped py_str md ≠ []
    ∧ Py.add_one idx = Ok label.

(** The three placeholders. *)
Definition is_placeholder_document (self : AzureMistralLoader) (doc : Document) : Prop :=
  doc = no_pages_document self
  ∨ (∃ total, doc = no_valid_pages_document self total)
  ∨ (∃ err, doc = processing_failed_document self err).

(** The steps of [load] that can fail before the result mapping: reading
    the file, the request itself (no connection, timeout), the status of the
    answer, the decoding of its body. *)
Inductive fails_before_mapping (self : AzureMistralLoader) (w : world) : exn → Prop :=
| read_fails err :
    open_read w (file_path self) = Raise err →
    fails_before_mapping self w err
| post_fails file_bytes err :
    open_read w (file_path self) = Ok file_bytes →
    requests_post w (ocr_request self file_bytes) = Raise err →
    fails_before_mapping self w err
| status_fails file_bytes resp :
    open_read w (file_path self) = Ok file_bytes →
    requests_post w (ocr_request self file_bytes) = Ok resp →
    400 ≤ status_code resp < 600 →
    fails_before_mapping self w (http_error resp)
| json_fails file_bytes resp err :
    open_read w (file_path self) = Ok file_bytes →
    requests_post w (ocr_request self file_bytes) = Ok resp →
    ¬ (400 ≤ status_code resp < 600) →
    json resp = Raise err →
    fails_before_mapping self w err.

(** The mapping itself fails on the decoded body. *)
Definition mapping_fails (py_str : pyval → pystr) (self : AzureMistralLoader)
    (w : world) (err : exn) : Prop :=
  ∃ file_bytes resp ocr_response,
    open_read w (file_path self) = Ok file_bytes
    ∧ requests_post w (ocr_request self file_bytes) = Ok resp
    ∧ ¬ (400 ≤ status_code resp < 600)
    ∧ json resp = Ok ocr_response
    ∧ _process_results py_str self ocr_response = Raise err.

(** Entry [i] of [pages] is an object with [index] [i] and a [markdown]
    string that does not trim to the empty string. *)
Definition well_formed_pages (pages : list pyval) : Prop :=
  ∀ (i : nat) entry, pages !! i = Some entry →
    ∃ e s, entry = PDict e
      ∧ e !! lit "markdown" = Some (PStr s)
      ∧ strip s ≠ []
      ∧ e !! lit "index" = Some (PInt (Z.of_nat i)).

(** [r] is a list with one document for each entry of [pages], at the
    position of the entry, with the content and the metadata of its page. *)
Definition one_document_per_page (pages : list pyval)
    (r : result (list Document)) : Prop :=
  ∃ docs, r = Ok docs
    ∧ length docs = length pages
    ∧ ∀ (i : nat) e s,
        pages !! i = Some (PDict e) → e !! lit "markdown" = Some (PStr s) →
        ∃ doc, docs !! i = Some doc
          ∧ page_content doc = strip s
          ∧ metadata doc !! lit "page" = Some (PInt (Z.of_nat i))
          ∧ metadata doc !! lit "page_label" = Some (PInt (Z.of_nat i + 1))
          ∧ metadata doc !! lit "total_pages"
              = Some (PInt (Z.of_nat (length pages)))
          ∧ metadata doc !! lit "content_length"
              = Some (PInt (Z.of_nat (length (strip s)))).

(** The response has no [pages], or a [pages] that tests false: [null], the
    empty list (and the other empty or zero values). *)
Definition pages_absent_or_empty (d : gmap pystr pyval) : Prop :=
  d !! lit "pages" = None
  ∨ ∃ v, d !! lit "pages" = Some v ∧ Py.truthy v = false.

(** An entry the loop skips: an object whose [markdown] or [index] is missing
    or [null], or whose [markdown] trims to the empty string. *)
Definition filtered_out (py_str : pyval → pystr) (entry : pyval) : Prop :=
  ∃ e, entry = PDict e
    ∧ (absent e (lit "markdown") ∨ absent e (lit "index")
       ∨ stripped py_str (default PNone (e !! lit "markdown")) = []).

(** The documents of pages among [docs]: those that are no placeholder. *)
Definition page_documents (docs : list Document) : list Document :=
  filter (λ doc, is_placeholder doc = false) docs.

(** The content of a document is never empty; the content of the document
    of a page is trimmed and counted by [content_length]; the content of a
    placeholder is one of the three messages of the source. *)
Definition content_well_formed (doc : Document) : Prop :=
  page_content doc ≠ []
  ∧ (is_placeholder doc = false →
       trimmed (page_content doc)
       ∧ metadata doc !! lit "content_length"
           = Some (PInt (Z.of_nat (length (page_content doc)))))
  ∧ (is_placeholder doc = true →
       page_content doc = lit "No text content found"
       ∨ page_content doc = lit "No valid text content found in document"
       ∨ ∃ text, page_content doc = lit "Error during processing: " ++ text).

(** ** Sample data for the examples *)

(** [str] on [None], booleans and integers, the values the examples convert;
    the other values stand for themselves by their type name here. *)
Definition str_scalar (v : pyval) : pystr :=
  match v with
  | PNone => lit "None"
  | PBool true => lit "True"
  | PBool false => lit "False"
  | PInt z => str_of_Z z
  | _ => Py.type_name v
  end.

(** An entry of [pages] with the two fields of the OCR service. *)
Definition page_entry (index : Z) (markdown : pystr) : pyval :=
  PDict {[ lit "index" := PInt index; lit "markdown" := PStr markdown ]}.

(** A response with the given entries. *)
Definition ocr_pages (pages : list pyval) : pyval :=
  PDict {[ lit "pages" := PList pages ]}.

Definition sample_path : pystr := lit "/data/uploads/report.pdf".

Definition sample_loader : AzureMistralLoader :=
  {| api_key := lit "secret";
     endpoint := lit "https://ocr.example.com";
     file_path := sample_path;
     model := lit "mistral-document-ai-2505";
     timeout := 300;
     include_image_base64 := false;
     headers :=
       {[ lit "Authorization" := lit "Bearer secret";
          lit "Content-Type" := lit "application/json";
          lit "Accept" := lit "application/json";
          lit "User-Agent" := lit "OpenWebUI-AzureMistralLoader/1.0" ]} |}.

(** A world in which the file exists and the server answers [resp]. *)
Definition answering (resp : response) : world :=
  {| os_path_exists := λ path, bool_decide (path = sample_path);
     open_read := λ path,
       if bool_decide (path = sample_path) then Ok [x25; x50; x44; x46]
       else Raise (Exn FileNotFoundError (lit "[Errno 2] No such file or directory"));
     requests_post := λ _, Ok resp |}.

(** A world in which the connection is refused. *)
Definition unreachable : world :=
  {| os_path_exists := λ path, bool_decide (path = sample_path);
     open_read := λ _, Ok [x25; x50; x44; x46];
     requests_post := λ _,
       Raise (Exn (OtherException "ConnectionError") (lit "Connection refused")) |}.

(** A server that answers a status outside 200-299 and outside 400-599,
    with a body the mapping accepts. *)
Definition multiple_choices : response :=
  {| status_code := 300;
     reason := lit "Multiple Choices";
     url := lit "https://ocr.example.com/providers/mistral/azure/ocr";
     json := Ok (ocr_pages [page_entry 0 (lit "Hello")]) |}.

(** A server that answers 500. *)
Definition server_error : response :=
  {| status_code := 500;
     reason := lit "Internal Server Error";
     url := lit "https://ocr.example.com/providers/mistral/azure/ocr";
     json := Ok (ocr_pages [page_entry 0 (lit "Hello")]) |}.

(** ** Further vocabulary *)

(** A value [v + 1] is defined for: an integer, a boolean or a float. *)
Definition numeric (v : pyval) : bool :=
  match v with
  | PInt _ | PBool _ | PFloat _ => true
  | _ => false
  end.

(** An entry the loop body returns for: an object that is skipped, or whose
    index is a number. *)
Definition entry_accepted (py_str : pyval → pystr) (entry : pyval) : Prop :=
  ∃ e, entry = PDict e
    ∧ (filtered_out py_str (PDict e)
       ∨ numeric (default PNone (e !! lit "index")) = true).

(** The six keys of the document of a page, the keys of the placeholders. *)
Definition page_keys : gset pystr :=
  {[ lit "page"; lit "page_label"; lit "total_pages"; lit "file_name";
     lit "processing_engine"; lit "content_length" ]}.

Definition failure_keys : gset pystr := {[ lit "error"; lit "file_name" ]}.

Definition no_valid_pages_keys : gset pystr :=
  {[ lit "error"; lit "total_pages"; lit "file_name" ]}.

(** A world in which nothing exists. *)
Definition empty_disk : world :=
  {| os_path_exists := λ _, false;
     open_read := λ _,
       Raise (Exn FileNotFoundError (lit "[Errno 2] No such file or directory"));
     requests_post := λ _,
       Raise (Exn (OtherException "ConnectionError") (lit "Connection refused")) |}.


(** The metadata of a document has one of three shapes: the six keys of a
    page, with the fixed engine name; [error] and [file_name], for
    "no_pages" and "processing_failed"; these and [total_pages], for
    "no_valid_pages". *)
Definition metadata_shape (doc : Document) : Prop :=
  (dom (metadata doc) = page_keys
   ∧ metadata doc !! lit "processing_engine" = Some (PStr (lit "mistral-ocr-azure")))
  ∨ (dom (metadata doc) = failure_keys
     ∧ (metadata doc !! lit "error" = Some (PStr (lit "no_pages"))
        ∨ metadata doc !! lit "error" = Some (PStr (lit "processing_failed"))))
  ∨ (dom (metadata doc) = no_valid_pages_keys
     ∧ metadata doc !! lit "error" = Some (PStr (lit "no_valid_pages"))).



(* ================================================================== *)
(** * Properties *)

(** ** Strings *)

Example basename_path : posixpath.basename (lit "/data/uploads/a.pdf") = lit "a.pdf".
Proof. reflexivity. Qed.

Example basename_plain : posixpath.basename (lit "a.pdf") = lit "a.pdf".
Proof. reflexivity. Qed.

Example basename_dir : posixpath.basename (lit "uploads/") = [].
Proof. reflexivity. Qed.

Example strip_both : strip ([0x20; 0x09]%N ++ lit "Page one" ++ [0x0A; 0xA0]%N) = lit "Page one".
Proof. reflexivity. Qed.

Example rstrip_slashes : rstrip_slash (lit "https://host/api//") = lit "https://host/api".
Proof. reflexivity. Qed.

Example str_of_Z_zero : str_of_Z 0 = lit "0" ∧ str_of_Z (-12) = lit "-12".
Proof. split; reflexivity. Qed.

Example b64encode_rfc4648 :
  base64.b64encode [x66; x6f; x6f] = lit "Zm9v"
  ∧ base64.b64encode [x66; x6f] = lit "Zm8="
  ∧ base64.b64encode [x66] = lit "Zg==".
Proof. repeat split; reflexivity. Qed.

Section StripFacts.
Variable drop : N → bool.

Lemma lstrip_by_split s :
  ∃ pre, s = pre ++ lstrip_by drop s ∧ Forall (λ c, drop c = true) pre.
Proof.
  induction s as [|c s [pre [Hs Hpre]]]; simpl.
  - exists []. split; [done | constructor].
  - destruct (drop c) eqn:Hc.
    + exists (c :: pre). split; [by rewrite Hs at 1 | by constructor].
    + exists []. split; [done | constructor].
Qed.

Lemma lstrip_by_head s c : head (lstrip_by drop s) = Some c → drop c = false.
Proof.
  induction s as [|x s IH]; simpl; [done |].
  destruct (drop x) eqn:Hx; [done |]. simpl. congruence.
Qed.

Lemma rstrip_by_split s :
  ∃ post, s = rstrip_by drop s ++ post ∧ Forall (λ c, drop c = true) post.
Proof.
  unfold rstrip_by.
  destruct (lstrip_by_split (reverse s)) as [pre [Hs Hpre]].
  exists (reverse pre). split.
  - rewrite <- reverse_app, <- Hs. by rewrite reverse_involutive.
  - by apply Forall_reverse.
Qed.

Lemma rstrip_by_last s c : last (rstrip_by drop s) = Some c → drop c = false.
Proof. unfold rstrip_by. rewrite last_reverse. apply lstrip_by_head. Qed.

Lemma rstrip_by_head s c :
  head (rstrip_by drop s) = Some c → head s = Some c.
Proof.
  destruct (rstrip_by_split s) as [post [Hs _]]. intros Hc.
  rewrite Hs. destruct (rstrip_by drop s); [done |]. done.
Qed.

Lemma strip_by_head s c : head (strip_by drop s) = Some c → drop c = false.
Proof. intros Hc. apply rstrip_by_head in Hc. by apply lstrip_by_head in Hc. Qed.

Lemma strip_by_last s c : last (strip_by drop s) = Some c → drop c = false.
Proof. apply rstrip_by_last. Qed.

Lemma strip_by_split s :
  ∃ pre post, s = pre ++ strip_by drop s ++ post
    ∧ Forall (λ c, drop c = true) pre ∧ Forall (λ c, drop c = true) post.
Proof.
  destruct (lstrip_by_split s) as [pre [Hs Hpre]].
  destruct (rstrip_by_split (lstrip_by drop s)) as [post [Ht Hpost]].
  exists pre, post. split; [| done].
  unfold strip_by. by rewrite <- Ht.
Qed.

End StripFacts.

Lemma strip_trimmed s : trimmed (strip s).
Proof. split; intros c; [apply strip_by_head | apply strip_by_last]. Qed.

(** The endpoint [__init__] stores: the given one without its trailing
    slashes, all of them. *)
Lemma rstrip_slash_spec s :
  ∃ k, s = rstrip_slash s ++ replicate k slash
    ∧ last (rstrip_slash s) ≠ Some slash.
Proof.
  destruct (rstrip_by_split (λ c, (c =? slash)%N) s) as [post [Hs Hpost]].
  exists (length post). split.
  - rewrite Hs at 1. f_equal. clear Hs.
    induction Hpost as [|c post Hc _ IH]; simpl; [done |].
    apply N.eqb_eq in Hc as ->. by f_equal.
  - intros Hl. by apply rstrip_by_last in Hl.
Qed.

Lemma rfind_spec c s :
  (posixpath.rfind c s = -1 ∧ (c ∉ s))
  ∨ (∃ pre post, s = pre ++ c :: post ∧ (c ∉ post)
       ∧ posixpath.rfind c s = Z.of_nat (length pre)).
Proof.
  induction s as [|x s IH]; simpl.
  - left. split; [done | apply not_elem_of_nil].
  - destruct IH as [[Hr Hs] | (pre & post & Hs & Hpost & Hr)].
    + rewrite Hr. simpl. destruct (N.eqb_spec x c) as [-> | Hx].
      * right. exists [], s. by repeat split.
      * left. split; [done |]. rewrite not_elem_of_cons. split; [congruence | done].
    + right. exists (x :: pre), post. rewrite Hr.
      destruct (Z.leb_spec 0 (Z.of_nat (length pre))) as [_ | ?]; [| lia].
      repeat split; [by rewrite Hs | done | simpl; lia].
Qed.

(** The base name is what follows the last slash: it has no slash, and what
    precedes it in the path is empty or ends with a slash. *)
Lemma basename_spec p :
  ∃ dir, p = dir ++ posixpath.basename p
    ∧ (slash ∉ posixpath.basename p)
    ∧ (dir = [] ∨ last dir = Some slash).
Proof.
  unfold posixpath.basename.
  destruct (rfind_spec slash p) as [[Hr Hp] | (pre & post & Hp & Hpost & Hr)].
  - rewrite Hr. simpl. exists []. repeat split; [done | by left].
  - rewrite Hr. exists (pre ++ [slash]).
    replace (Z.to_nat (Z.of_nat (length pre) + 1)) with (length (pre ++ [slash]))
      by (rewrite length_app; simpl; lia).
    assert (Hd : drop (length (pre ++ [slash])) p = post).
    { rewrite Hp. change (pre ++ slash :: post) with (pre ++ [slash] ++ post).
      rewrite (assoc_L (++) pre). apply drop_app_length. }
    rewrite Hd. repeat split; [by rewrite Hp, <- (assoc_L (++)) | done |].
    right. apply last_snoc.
Qed.

(** ** The documents *)

Section DocumentFacts.
Variable py_str : pyval → pystr.
Variable self : AzureMistralLoader.

Lemma page_document_metadata c idx label total :
  let md := metadata (page_document self c idx label total) in
  md !! lit "page" = Some idx
  ∧ md !! lit "page_label" = Some label
  ∧ md !! lit "total_pages" = Some (PInt total)
  ∧ md !! lit "file_name" = Some (PStr (posixpath.basename (file_path self)))
  ∧ md !! lit "processing_engine" = Some (PStr (lit "mistral-ocr-azure"))
  ∧ md !! lit "content_length" = Some (PInt (Z.of_nat (length c)))
  ∧ md !! lit "error" = None.
Proof. repeat split; reflexivity. Qed.

Lemma page_document_not_placeholder c idx label total :
  is_placeholder (page_document self c idx label total) = false.
Proof. reflexivity. Qed.

Lemma no_pages_metadata :
  let md := metadata (no_pages_document self) in
  md !! lit "error" = Some (PStr (lit "no_pages"))
  ∧ md !! lit "file_name" = Some (PStr (posixpath.basename (file_path self)))
  ∧ dom md = {[ lit "error"; lit "file_name" ]}.
Proof. repeat split; reflexivity. Qed.

Lemma no_valid_pages_metadata total :
  let md := metadata (no_valid_pages_document self total) in
  md !! lit "error" = Some (PStr (lit "no_valid_pages"))
  ∧ md !! lit "total_pages" = Some (PInt total)
  ∧ md !! lit "file_name" = Some (PStr (posixpath.basename (file_path self)))
  ∧ dom md = {[ lit "error"; lit "total_pages"; lit "file_name" ]}.
Proof. repeat split; reflexivity. Qed.

Lemma processing_failed_metadata e :
  let md := metadata (processing_failed_document self e) in
  md !! lit "error" = Some (PStr (lit "processing_failed"))
  ∧ md !! lit "file_name" = Some (PStr (posixpath.basename (file_path self)))
  ∧ dom md = {[ lit "error"; lit "file_name" ]}.
Proof. repeat split; reflexivity. Qed.

End DocumentFacts.

(** ** The result mapping *)

Section MappingFacts.
Variable py_str : pyval → pystr.
Variable self : AzureMistralLoader.

(** The loop body on an entry that is an object. *)
Lemma process_page_dict total e :
  process_page py_str self total (PDict e) =
    let page_content := default PNone (e !! lit "markdown") in
    let page_index := default PNone (e !! lit "index") in
    if Py.is_none page_content || Py.is_none page_index then Ok None
    else if bool_decide (stripped py_str page_content = []) then Ok None
    else
      match Py.add_one page_index with
      | Ok page_label =>
          Ok (Some (page_document self (stripped py_str page_content)
                      page_index page_label total))
      | Raise err => Raise err
      end.
Proof.
  unfold process_page. simpl.
  destruct (Py.is_none _ || Py.is_none _); [done |].
  destruct (bool_decide _); [done |].
  by destruct (Py.add_one _).
Qed.

(** An entry that is no object makes the loop body raise. *)
Lemma process_page_not_dict total entry :
  (∀ e, entry ≠ PDict e) →
  ∃ err, process_page py_str self total entry = Raise err
    ∧ exn_type err = AttributeError.
Proof.
  intros Hne. destruct entry; try (eexists; split; reflexivity).
  by destruct (Hne d).
Qed.

(** What the loop body appends is the document of a page. *)
Lemma process_page_Some total entry doc :
  process_page py_str self total entry = Ok (Some doc) →
  ∃ e md idx label,
    entry = PDict e ∧ e !! lit "markdown" = Some md ∧ e !! lit "index" = Some idx
    ∧ md ≠ PNone ∧ idx ≠ PNone
    ∧ stripped py_str md ≠ []
    ∧ Py.add_one idx = Ok label
    ∧ doc = page_document self (stripped py_str md) idx label total.
Proof.
  intros Hp. destruct entry as [| | | | | |e]; try discriminate Hp.
  rewrite process_page_dict in Hp. simpl in Hp.
  destruct (e !! lit "markdown") as [md|] eqn:Hmd; simpl in Hp; [| discriminate Hp].
  destruct (e !! lit "index") as [idx|] eqn:Hidx; simpl in Hp;
    [| by rewrite orb_true_r in Hp].
  destruct (Py.is_none md || Py.is_none idx) eqn:Hnone; [discriminate Hp |].
  apply orb_false_elim in Hnone as [Hm Hi].
  case_bool_decide as Hc; [discriminate Hp |].
  destruct (Py.add_one idx) as [label|] eqn:Hadd; [| discriminate Hp].
  exists e, md, idx, label. repeat split; try done.
  - by intros ->.
  - by intros ->.
  - congruence.
Qed.

(** The loop appends to the list it was given. *)
Lemma for_pages_acc total pages acc :
  for_pages py_str self total pages acc =
    match for_pages py_str self total pages [] with
    | Ok docs => Ok (acc ++ docs)
    | Raise err => Raise err
    end.
Proof.
  revert acc. induction pages as [|page_data rest IH]; intros acc; simpl.
  - by rewrite (right_id_L [] (++)).
  - destruct (process_page py_str self total page_data) as [[doc|]|err]; [| done | done].
    rewrite (IH (acc ++ [doc])), (IH [doc]).
    destruct (for_pages py_str self total rest []); [| done].
    by rewrite (assoc_L (++)).
Qed.

(** One turn of the loop. *)
Lemma for_pages_cons total page_data rest :
  for_pages py_str self total (page_data :: rest) [] =
    match process_page py_str self total page_data with
    | Ok out =>
        match for_pages py_str self total rest [] with
        | Ok docs => Ok (option_list out ++ docs)
        | Raise err => Raise err
        end
    | Raise err => Raise err
    end.
Proof.
  simpl. destruct (process_page py_str self total page_data) as [[doc|]|err];
    [| by destruct (for_pages py_str self total rest []) | done].
  rewrite (for_pages_acc _ _ ([] ++ [doc])).
  by destruct (for_pages py_str self total rest []).
Qed.

(** The loop returns when the body returns for every entry, and then the
    list holds the appended documents in the order of their entries. *)
Lemma for_pages_spec total pages docs :
  for_pages py_str self total pages [] = Ok docs ↔
  ∃ outs : list (option Document),
    Forall2 (λ entry out, process_page py_str self total entry = Ok out) pages outs
    ∧ docs = omap id outs.
Proof.
  revert docs. induction pages as [|page_data rest IH]; intros docs.
  - simpl. split.
    + intros [= <-]. exists []. split; [constructor | done].
    + intros (outs & Hall & ->). by apply Forall2_nil_inv_l in Hall as ->.
  - rewrite for_pages_cons. split.
    + destruct (process_page py_str self total page_data) as [out|err] eqn:Hp;
        [| done].
      destruct (for_pages py_str self total rest []) as [docs'|] eqn:Hrest;
        [| done].
      destruct (proj1 (IH docs') eq_refl) as (outs & Hall & ->).
      intros [= <-]. exists (out :: outs). split; [by constructor |].
      by destruct out.
    + intros (outs & Hall & ->).
      apply Forall2_cons_inv_l in Hall as (out & outs' & Hp & Hall & ->).
      rewrite Hp. rewrite (proj2 (IH (omap id outs'))) by eauto.
      by destruct out.
Qed.

(** The loop raises exactly when the body raises for some entry. *)
Lemma for_pages_raises total pages :
  (∃ err, for_pages py_str self total pages [] = Raise err) ↔
  Exists (λ entry, ∃ err, process_page py_str self total entry = Raise err) pages.
Proof.
  induction pages as [|page_data rest IH].
  - simpl. split; [by intros [? ?] | by intros ?%Exists_nil].
  - rewrite for_pages_cons, Exists_cons, <- IH.
    destruct (process_page py_str self total page_data) as [out|err]; split.
    + intros [err Herr]. right.
      destruct (for_pages py_str self total rest []); [done | by eexists].
    + intros [[? ?] | [err Herr]]; [done |]. rewrite Herr. by eexists.
    + intros _. left. by eexists.
    + intros _. by eexists.
Qed.

(** The mapping on a response whose [pages] is a list with an element. *)
Lemma process_results_pages d l :
  d !! lit "pages" = Some (PList l) → l ≠ [] →
  _process_results py_str self (PDict d) =
    match for_pages py_str self (Z.of_nat (length l)) l [] with
    | Ok documents =>
        if bool_decide (documents = []) then
          Ok [no_valid_pages_document self (Z.of_nat (length l))]
        else Ok documents
    | Raise err => Raise err
    end.
Proof.
  intros Hd Hl. unfold _process_results. simpl. rewrite Hd. simpl.
  destruct l as [|page_data rest]; [done |]. simpl.
  set (r := match process_page _ _ _ _ with Ok _ => _ | Raise _ => _ end).
  destruct r as [documents|]; [| done]. simpl. by case_bool_decide.
Qed.

(** The mapping on a response without usable [pages]. *)
Lemma process_results_no_pages d :
  Py.truthy (default PNone (d !! lit "pages")) = false →
  _process_results py_str self (PDict d) = Ok [no_pages_document self].
Proof. intros Hd. unfold _process_results. simpl. by rewrite Hd. Qed.

End MappingFacts.

(** ** What the mapping can return *)

(** Unfolds the sequencing of results in the goal and the hypotheses. *)
Ltac unfold_result :=
  unfold mbind, mret, result_bind, result_ret in *; simpl in *.

Section OutcomeFacts.
Variable py_str : pyval → pystr.
Variable self : AzureMistralLoader.

Lemma for_pages_documents total pages docs :
  for_pages py_str self total pages [] = Ok docs →
  Forall (is_page_document py_str self) docs.
Proof.
  intros (outs & Hall & ->)%for_pages_spec.
  induction Hall as [|entry out pages outs Hp _ IH]; simpl; [constructor |].
  destruct out as [doc|]; simpl; [| done]. constructor; [| done].
  apply process_page_Some in Hp
    as (e & md & idx & label & _ & _ & _ & _ & _ & Hc & Hadd & ->).
  by exists md, idx, label, total.
Qed.

(** The mapping returns the single placeholder of an empty answer, the
    single placeholder of an answer without a kept page, or the documents of
    the kept pages, of which there is one at least. *)
Lemma process_results_Ok ocr_response docs :
  _process_results py_str self ocr_response = Ok docs →
  docs = [no_pages_document self]
  ∨ (∃ total, docs = [no_valid_pages_document self total])
  ∨ (docs ≠ [] ∧ Forall (is_page_document py_str self) docs).
Proof.
  unfold _process_results. intros Hr. unfold_result.
  destruct (Py.get ocr_response (lit "pages")) as [pages_data|]; [| done].
  destruct (Py.truthy pages_data); simpl in Hr; [| left; congruence].
  destruct (Py.len pages_data) as [total|]; [| done].
  destruct (Py.iter pages_data) as [pages|]; [| done].
  destruct (for_pages py_str self total pages []) as [documents|] eqn:Hfor;
    [| done].
  case_bool_decide as Hdocs; injection Hr as <-.
  - right. left. by exists total.
  - right. right. split; [done |]. by eapply for_pages_documents.
Qed.

Lemma process_results_nonempty ocr_response docs :
  _process_results py_str self ocr_response = Ok docs → docs ≠ [].
Proof.
  intros [-> | [[total ->] | [Hne _]]]%process_results_Ok; done.
Qed.

(** A response that is no object makes the mapping raise. *)
Lemma process_results_not_dict ocr_response :
  (∀ d, ocr_response ≠ PDict d) →
  ∃ err, _process_results py_str self ocr_response = Raise err
    ∧ exn_type err = AttributeError.
Proof.
  intros Hne. destruct ocr_response; try (eexists; split; reflexivity).
  by destruct (Hne d).
Qed.

(** ** The steps of [load] *)

Lemma load_body_run w :
  run (load_body py_str self w) =
    match open_read w (file_path self) with
    | Ok file_bytes =>
        match requests_post w (ocr_request self file_bytes) with
        | Ok resp =>
            match raise_for_status resp with
            | Ok _ =>
                match json resp with
                | Ok ocr_response => _process_results py_str self ocr_response
                | Raise err => Raise err
                end
            | Raise err => Raise err
            end
        | Raise err => Raise err
        end
    | Raise err => Raise err
    end.
Proof.
  unfold run, load_body, mbind, io_bind, read_bytes, post, lift, mret, io_ret.
  simpl. destruct (open_read w (file_path self)) as [file_bytes|]; [| done].
  destruct (requests_post w _) as [resp|]; [| done].
  destruct (raise_for_status resp); [| done].
  destruct (json resp) as [ocr_response|]; [| done].
  by destruct (_process_results py_str self ocr_response).
Qed.

Lemma load_run w :
  run (load py_str self w) =
    match run (load_body py_str self w) with
    | Ok docs => Ok docs
    | Raise err => Ok [processing_failed_document self err]
    end.
Proof.
  unfold run, load, try_except.
  by destruct (load_body py_str self w []) as [[docs|err] log].
Qed.

(** [load] reads the file once and, when that succeeds, posts once. *)
Lemma load_trace w :
  trace (load py_str self w) =
    FileRead (file_path self) ::
    match open_read w (file_path self) with
    | Ok file_bytes => [HttpPost (ocr_request self file_bytes)]
    | Raise _ => []
    end.
Proof.
  unfold trace, load, try_except, load_body, mbind, io_bind, read_bytes, post,
    lift, mret, io_ret.
  simpl. destruct (open_read w (file_path self)) as [file_bytes|]; [| done].
  destruct (requests_post w _) as [resp|]; [| done].
  destruct (raise_for_status resp); [| done].
  destruct (json resp) as [ocr_response|]; [| done].
  by destruct (_process_results py_str self ocr_response).
Qed.

End OutcomeFacts.

Section LoadFacts.
Variable py_str : pyval → pystr.
Variable self : AzureMistralLoader.

Lemma raise_for_status_spec resp :
  raise_for_status resp =
    if bool_decide (400 ≤ status_code resp < 600) then Raise (http_error resp)
    else Ok ().
Proof.
  unfold raise_for_status.
  destruct (Z.leb_spec 400 (status_code resp)), (Z.ltb_spec (status_code resp) 500),
    (Z.leb_spec 500 (status_code resp)), (Z.ltb_spec (status_code resp) 600);
    simpl; case_bool_decide; (done || lia).
Qed.

(** The [try] block raises exactly for a failure of one of its steps. *)
Lemma load_body_raises w err :
  run (load_body py_str self w) = Raise err ↔
  fails_before_mapping self w err ∨ mapping_fails py_str self w err.
Proof.
  rewrite load_body_run. split.
  - destruct (open_read w (file_path self)) as [file_bytes|] eqn:Hread;
      [| intros [= ->]; left; by apply read_fails].
    destruct (requests_post w _) as [resp|] eqn:Hpost;
      [| intros [= ->]; left; by eapply post_fails].
    rewrite raise_for_status_spec. case_bool_decide as Hst;
      [intros [= <-]; left; by eapply status_fails |].
    destruct (json resp) as [ocr_response|] eqn:Hjson;
      [| intros [= ->]; left; by eapply json_fails].
    intros Hmap. right. by exists file_bytes, resp, ocr_response.
  - intros [Hfail | (file_bytes & resp & ocr_response & -> & -> & Hst & -> & Hmap)].
    + destruct Hfail as [err Hread | file_bytes err Hread Hpost
        | file_bytes resp Hread Hpost Hst | file_bytes resp err Hread Hpost Hst Hjson].
      * by rewrite Hread.
      * by rewrite Hread, Hpost.
      * rewrite Hread, Hpost, raise_for_status_spec. by rewrite bool_decide_true.
      * rewrite Hread, Hpost, raise_for_status_spec, Hjson.
        by rewrite bool_decide_false.
    + rewrite raise_for_status_spec. by rewrite bool_decide_false.
Qed.

(** [load] returns what the mapping returned, or the placeholder of the
    exception it caught. *)
Lemma load_cases w :
  ∃ docs, run (load py_str self w) = Ok docs
    ∧ ((∃ ocr_response, _process_results py_str self ocr_response = Ok docs)
       ∨ ∃ err, docs = [processing_failed_document self err]).
Proof.
  rewrite load_run, load_body_run.
  destruct (open_read w (file_path self)) as [file_bytes|]; [| by eauto].
  destruct (requests_post w _) as [resp|]; [| by eauto].
  destruct (raise_for_status resp); [| by eauto].
  destruct (json resp) as [r|]; [| by eauto].
  destruct (_process_results py_str self r) as [docs|] eqn:Hr; by eauto.
Qed.

Lemma load_posts_once w : (posts (trace (load py_str self w)) ≤ 1)%nat.
Proof.
  rewrite load_trace. unfold posts.
  destruct (open_read w (file_path self)); simpl; lia.
Qed.

End LoadFacts.

(** ** The properties of the specification *)

(** C1: [load] never raises.  Whatever the file system and the server do
    after the loader was constructed, [load] returns a list, and the list is
    never empty.  It holds the documents of the kept pages, which have a
    [page], no [error] and a content, or exactly one placeholder: a document
    with a content, the [file_name] of the loader and an [error] that is
    "no_pages", "no_valid_pages" or "processing_failed".  Every failure of a
    step of the [try] block (reading the file, the request, the status, the
    JSON decoding, the mapping) is caught and returned as one document whose
    metadata is exactly [error] = "processing_failed" and [file_name], and
    whose content is "Error during processing: " and the text of the
    exception. *)
Theorem load_never_raises py_str self w :
  ∃ docs,
    run (load py_str self w) = Ok docs
    ∧ docs ≠ []
    ∧ (Forall (λ doc, is_placeholder doc = false
                      ∧ is_Some (metadata doc !! lit "page")
                      ∧ page_content doc ≠ []) docs
       ∨ ∃ doc, docs = [doc]
           ∧ is_placeholder doc = true
           ∧ page_content doc ≠ []
           ∧ metadata doc !! lit "file_name"
               = Some (PStr (posixpath.basename (file_path self)))
           ∧ (metadata doc !! lit "error" = Some (PStr (lit "no_pages"))
              ∨ metadata doc !! lit "error" = Some (PStr (lit "no_valid_pages"))
              ∨ metadata doc !! lit "error" = Some (PStr (lit "processing_failed"))))
    ∧ (∀ err,
         fails_before_mapping self w err ∨ mapping_fails py_str self w err →
         ∃ doc, docs = [doc]
           ∧ metadata doc
               = {[ lit "error" := PStr (lit "processing_failed");
                    lit "file_name"
                      := PStr (posixpath.basename (file_path self)) ]}
           ∧ metadata doc !! lit "error" = Some (PStr (lit "processing_failed"))
           ∧ metadata doc !! lit "file_name"
               = Some (PStr (posixpath.basename (file_path self)))
           ∧ page_content doc = lit "Error during processing: " ++ exn_str err).
Proof.
  assert (Hfailed : ∀ err, ∃ doc,
    [processing_failed_document self err] = [doc]
    ∧ metadata doc
        = {[ lit "error" := PStr (lit "processing_failed");
             lit "file_name" := PStr (posixpath.basename (file_path self)) ]}
    ∧ metadata doc !! lit "error" = Some (PStr (lit "processing_failed"))
    ∧ metadata doc !! lit "file_name"
        = Some (PStr (posixpath.basename (file_path self)))
    ∧ page_content doc = lit "Error during processing: " ++ exn_str err).
  { intros err. eexists. split; [reflexivity |]. by split_and!. }
  rewrite load_run.
  destruct (run (load_body py_str self w)) as [docs|err0] eqn:Hbody.
  - exists docs. split; [done |].
    rewrite load_body_run in Hbody.
    assert (∃ r, _process_results py_str self r = Ok docs) as [r Hr].
    { destruct (open_read w (file_path self)); [| done].
      destruct (requests_post w _) as [resp|]; [| done].
      destruct (raise_for_status resp); [| done].
      destruct (json resp) as [r|]; [| done]. by exists r. }
    split; [by eapply process_results_nonempty |]. split.
    + apply process_results_Ok in Hr as [-> | [[total ->] | [_ Hall]]].
      * right. eexists. split; [done |]. split_and!; try done. by left.
      * right. eexists. split; [done |]. split_and!; try done. right. by left.
      * left. eapply Forall_impl; [exact Hall |].
        intros doc (md & idx & label & total & -> & Hne & _).
        split_and!; [done | by eexists | done].
    + intros err Herr%load_body_raises. rewrite load_body_run in Herr. congruence.
  - exists [processing_failed_document self err0]. split; [done |].
    split; [done |]. split.
    + right. eexists. split; [done |]. split_and!; try done. right. by right.
    + intros err Herr%load_body_raises.
      assert (err = err0) as -> by congruence. apply Hfailed.
Qed.

Lemma load_never_raises_unreachable :
  let err := Exn (OtherException "ConnectionError") (lit "Connection refused") in
  fails_before_mapping sample_loader unreachable err
  ∧ ∃ doc,
      run (load str_scalar sample_loader unreachable) = Ok [doc]
      ∧ metadata doc !! lit "error" = Some (PStr (lit "processing_failed"))
      ∧ metadata doc !! lit "file_name" = Some (PStr (lit "report.pdf"))
      ∧ page_content doc = lit "Error during processing: Connection refused".
Proof.
  intros err.
  assert (H : fails_before_mapping sample_loader unreachable err).
  { apply (post_fails _ _ [x25; x50; x44; x46]); reflexivity. }
  split; [exact H |].
  destruct (load_never_raises str_scalar sample_loader unreachable)
    as (docs & Hrun & _ & _ & Hfail).
  destruct (Hfail err (or_introl H)) as (doc & -> & _ & Herror & Hname & Hcontent).
  exists doc. split; [exact Hrun |]. split; [exact Herror |].
  split; [exact Hname | exact Hcontent].
Defined.

Section WellFormedPages.
Variable py_str : pyval → pystr.
Variable self : AzureMistralLoader.

(** The loop body on an entry with an integer index and a string. *)
Lemma process_page_well_formed total e s (i : Z) :
  e !! lit "markdown" = Some (PStr s) → e !! lit "index" = Some (PInt i) →
  strip s ≠ [] →
  process_page py_str self total (PDict e) =
    Ok (Some (page_document self (strip s) (PInt i) (PInt (i + 1)) total)).
Proof.
  intros Hmd Hidx Hs. rewrite process_page_dict, Hmd, Hidx. simpl.
  by rewrite bool_decide_false.
Qed.

(** The loop on entries numbered from [k]. *)
Lemma for_pages_numbered total pages (k : nat) :
  (∀ (i : nat) entry, pages !! i = Some entry →
     ∃ e s, entry = PDict e ∧ e !! lit "markdown" = Some (PStr s)
       ∧ strip s ≠ [] ∧ e !! lit "index" = Some (PInt (Z.of_nat (k + i)))) →
  ∃ docs, for_pages py_str self total pages [] = Ok docs
    ∧ length docs = length pages
    ∧ ∀ (i : nat) e s,
        pages !! i = Some (PDict e) → e !! lit "markdown" = Some (PStr s) →
        docs !! i = Some (page_document self (strip s) (PInt (Z.of_nat (k + i)))
                            (PInt (Z.of_nat (k + i) + 1)) total).
Proof.
  revert k. induction pages as [|entry rest IH]; intros k Hwf.
  - exists []. by repeat split.
  - destruct (Hwf 0%nat entry eq_refl) as (e & s & -> & Hmd & Hs & Hidx).
    destruct (IH (S k)) as (docs & Hfor & Hlen & Hdocs).
    { intros i entry' Hi. destruct (Hwf (S i) entry' Hi) as (e' & s' & ? & ? & ? & Hi').
      exists e', s'. by rewrite Nat.add_succ_comm. }
    rewrite for_pages_cons, (process_page_well_formed _ _ _ _ Hmd Hidx Hs), Hfor.
    eexists. split; [done |]. split; [simpl; by rewrite Hlen |].
    intros [|i] e' s' Hi Hmd'; simpl in *.
    + injection Hi as <-. rewrite Hmd in Hmd'. injection Hmd' as <-. done.
    + replace (k + S i)%nat with (S k + i)%nat by lia. exact (Hdocs i e' s' Hi Hmd').
Qed.

End WellFormedPages.

(** C2, as stated, fails for a list of no entries: the mapping returns one
    document, the placeholder [no_pages], where the statement asks for none. *)
Lemma empty_page_list_gives_placeholder :
  well_formed_pages []
  ∧ _process_results str_scalar sample_loader (ocr_pages [])
      = Ok [no_pages_document sample_loader]
  ∧ ¬ one_document_per_page []
        (_process_results str_scalar sample_loader (ocr_pages [])).
Proof.
  split; [by intros i entry Hi |]. split; [reflexivity |].
  intros (docs & Hdocs & Hlen & _). injection Hdocs as <-. discriminate Hlen.
Qed.

(** C2 (amended): for a response whose [pages] is a list of N entries, N at
    least 1, entry [i] with the index [i] and a markdown string that is not
    empty after trimming, the mapping returns N documents in the order of the
    indices; document [i] has the trimmed markdown as content and, in its
    metadata, [page] = i, [page_label] = i + 1, [total_pages] = N and
    [content_length] = the length of the content. *)
Theorem well_formed_pages_mapped py_str self d pages :
  d !! lit "pages" = Some (PList pages) →
  pages ≠ [] →
  well_formed_pages pages →
  one_document_per_page pages (_process_results py_str self (PDict d)).
Proof.
  intros Hd Hne Hwf. rewrite (process_results_pages _ _ _ _ Hd Hne).
  destruct (for_pages_numbered py_str self (Z.of_nat (length pages)) pages 0 Hwf)
    as (docs & -> & Hlen & Hdocs).
  exists docs. rewrite bool_decide_false by (destruct docs, pages; done).
  repeat split; [done |].
  intros i e s Hi Hmd. rewrite (Hdocs i e s Hi Hmd).
  eexists. split; [done |]. repeat split.
Qed.

Lemma well_formed_pages_mapped_two :
  let pages := [page_entry 0 (lit " First page "); page_entry 1 (lit "Second page")] in
  well_formed_pages pages
  ∧ one_document_per_page pages
      (_process_results str_scalar sample_loader (ocr_pages pages)).
Proof.
  intros pages.
  assert (Hwf : well_formed_pages pages).
  { intros [|[|i]] entry [= <-]; do 2 eexists; repeat split; done. }
  split; [exact Hwf |].
  apply (well_formed_pages_mapped str_scalar sample_loader
           {[ lit "pages" := PList pages ]} pages); [reflexivity | done | exact Hwf].
Defined.

(** C3: construction fails if and only if the API key is empty, the endpoint
    is empty or the path names no existing file, and then with a
    [ValueError] or a [FileNotFoundError]; it makes no request, whatever its
    outcome; when it succeeds, the loader holds the arguments as given (the
    defaults for those left out), the endpoint without its trailing slashes,
    and the four headers.  The methods take the loader as a value and return
    no loader: nothing outside [__init__] assigns an attribute. *)
Theorem init_validates w key ep path opt_model opt_timeout opt_images :
  let init := __init__ w key ep path opt_model opt_timeout opt_images in
  ((∃ err, run init = Raise err)
     ↔ key = [] ∨ ep = [] ∨ os_path_exists w path = false)
  ∧ (∀ err, run init = Raise err →
       exn_type err = ValueError ∨ exn_type err = FileNotFoundError)
  ∧ Forall (λ ev, is_post ev = false) (trace init)
  ∧ (∀ self, run init = Ok self →
       self = {| api_key := key;
                 endpoint := rstrip_slash ep;
                 file_path := path;
                 model := default (lit "mistral-document-ai-2505") opt_model;
                 timeout := default 300 opt_timeout;
                 include_image_base64 := default false opt_images;
                 headers :=
                   {[ lit "Authorization" := lit "Bearer " ++ key;
                      lit "Content-Type" := lit "application/json";
                      lit "Accept" := lit "application/json";
                      lit "User-Agent" := lit "OpenWebUI-AzureMistralLoader/1.0" ]} |}
       ∧ ∃ k, ep = endpoint self ++ replicate k slash
           ∧ last (endpoint self) ≠ Some slash).
Proof.
  unfold __init__, run, trace. simpl.
  case_bool_decide as Hkey.
  { unfold raise. simpl. split_and!.
    - split; [intros _; by left | intros _; by eexists].
    - intros err [= <-]. by left.
    - constructor.
    - done. }
  case_bool_decide as Hep.
  { unfold raise. simpl. split_and!.
    - split; [intros _; right; by left | intros _; by eexists].
    - intros err [= <-]. by left.
    - constructor.
    - done. }
  unfold mbind, io_bind, path_exists, raise, mret, io_ret. simpl.
  destruct (os_path_exists w path) eqn:Hpath; simpl; split_and!.
  - split; [by intros [err ?] | intros [? | [? | ?]]; done].
  - done.
  - by repeat constructor.
  - intros self [= <-]. split; [done |]. simpl. apply rstrip_slash_spec.
  - split; [intros _; right; by right | intros _; by eexists].
  - intros err [= <-]. by right.
  - by repeat constructor.
  - done.
Qed.

Lemma init_validates_sample :
  run (__init__ unreachable (lit "secret") (lit "https://ocr.example.com/")
         sample_path None None None) = Ok sample_loader
  ∧ endpoint sample_loader = rstrip_slash (lit "https://ocr.example.com/")
  ∧ ∃ err, run (__init__ unreachable [] (lit "https://ocr.example.com/")
                  sample_path None None None) = Raise err.
Proof.
  split; [reflexivity |]. split.
  - destruct (init_validates unreachable (lit "secret")
                (lit "https://ocr.example.com/") sample_path None None None)
      as (_ & _ & _ & Hself).
    destruct (Hself sample_loader eq_refl) as [-> _]. reflexivity.
  - apply (init_validates unreachable [] (lit "https://ocr.example.com/")
             sample_path None None None).
    left. reflexivity.
Defined.

Example falsy_values :
  Py.truthy PNone = false ∧ Py.truthy (PList []) = false
  ∧ Py.truthy (PDict ∅) = false ∧ Py.truthy (PStr []) = false
  ∧ Py.truthy (PInt 0) = false ∧ Py.truthy (PBool false) = false
  ∧ Py.truthy (PFloat 0) = false.
Proof. repeat split; reflexivity. Qed.

(** C4: when the response has no [pages] field, or an empty one, the mapping
    returns exactly one document, with the content "No text content found"
    and a metadata of exactly two keys, [error] = "no_pages" and [file_name]
    = the base name of the file; it has no [page], [total_pages] or
    [content_length]. *)
Theorem no_pages_placeholder py_str self d :
  pages_absent_or_empty d →
  ∃ doc,
    _process_results py_str self (PDict d) = Ok [doc]
    ∧ page_content doc = lit "No text content found"
    ∧ metadata doc =
        {[ lit "error" := PStr (lit "no_pages");
           lit "file_name" := PStr (posixpath.basename (file_path self)) ]}
    ∧ dom (metadata doc) = {[ lit "error"; lit "file_name" ]}
    ∧ metadata doc !! lit "page" = None
    ∧ metadata doc !! lit "total_pages" = None
    ∧ metadata doc !! lit "content_length" = None.
Proof.
  intros Hd. exists (no_pages_document self). split.
  - apply process_results_no_pages.
    destruct Hd as [-> | (v & -> & Hv)]; done.
  - repeat split; reflexivity.
Qed.

Lemma no_pages_placeholder_empty_list :
  pages_absent_or_empty {[ lit "pages" := PList [] ]}
  ∧ ∃ doc,
      _process_results str_scalar sample_loader (ocr_pages []) = Ok [doc]
      ∧ page_content doc = lit "No text content found"
      ∧ metadata doc =
          {[ lit "error" := PStr (lit "no_pages");
             lit "file_name" := PStr (lit "report.pdf") ]}.
Proof.
  assert (H : pages_absent_or_empty {[ lit "pages" := PList [] ]}).
  { right. exists (PList []). split; reflexivity. }
  split; [exact H |].
  destruct (no_pages_placeholder str_scalar sample_loader _ H)
    as (doc & Hdoc & Hc & Hm & _).
  exists doc. split; [exact Hdoc |]. split; [exact Hc | exact Hm].
Defined.

Section Filtering.
Variable py_str : pyval → pystr.
Variable self : AzureMistralLoader.

Lemma process_page_filtered total entry :
  filtered_out py_str entry → process_page py_str self total entry = Ok None.
Proof.
  intros (e & -> & H). rewrite process_page_dict. simpl.
  destruct H as [[-> | ->] | [[-> | ->] | Hs]]; simpl; try done.
  - by rewrite orb_true_r.
  - by rewrite orb_true_r.
  - destruct (Py.is_none _ || Py.is_none _); [done |]. by rewrite bool_decide_true.
Qed.

(** The loop on a list in two parts. *)
Lemma for_pages_app total pages1 pages2 acc :
  for_pages py_str self total (pages1 ++ pages2) acc =
    match for_pages py_str self total pages1 acc with
    | Ok documents => for_pages py_str self total pages2 documents
    | Raise err => Raise err
    end.
Proof.
  revert acc. induction pages1 as [|page_data rest IH]; intros acc; simpl; [done |].
  by destruct (process_page py_str self total page_data) as [[doc|]|].
Qed.

Lemma for_pages_filtered total pages acc :
  Forall (filtered_out py_str) pages →
  for_pages py_str self total pages acc = Ok acc.
Proof.
  induction 1 as [|entry rest Hentry _ IH]; simpl; [done |].
  by rewrite (process_page_filtered _ _ Hentry).
Qed.

End Filtering.

(** C5: an entry of [pages] whose [markdown] or [index] is missing, or whose
    [markdown] trims to the empty string, gives no document: the loop body
    skips it, and the loop goes on as if the entry were not in the list.
    When [pages] is not empty and every entry is skipped, the mapping returns
    exactly one document, with the content "No valid text content found in
    document" and the metadata [error] = "no_valid_pages", [total_pages] = the
    number of entries, [file_name] = the base name of the file. *)
Theorem filtered_pages_placeholder py_str self :
  (∀ total entry,
     filtered_out py_str entry →
     process_page py_str self total entry = Ok None)
  ∧ (∀ total before entry after documents,
       filtered_out py_str entry →
       for_pages py_str self total (before ++ entry :: after) documents
       = for_pages py_str self total (before ++ after) documents)
  ∧ (∀ d pages,
       d !! lit "pages" = Some (PList pages) → pages ≠ [] →
       Forall (filtered_out py_str) pages →
       ∃ doc,
         _process_results py_str self (PDict d) = Ok [doc]
         ∧ page_content doc = lit "No valid text content found in document"
         ∧ metadata doc =
             {[ lit "error" := PStr (lit "no_valid_pages");
                lit "total_pages" := PInt (Z.of_nat (length pages));
                lit "file_name" := PStr (posixpath.basename (file_path self)) ]}
         ∧ dom (metadata doc)
             = {[ lit "error"; lit "total_pages"; lit "file_name" ]}).
Proof.
  split_and!.
  - intros total entry. apply process_page_filtered.
  - intros total before entry after documents Hentry.
    rewrite !for_pages_app. simpl.
    by rewrite (process_page_filtered _ _ _ _ Hentry).
  - intros d pages Hd Hne Hall.
    exists (no_valid_pages_document self (Z.of_nat (length pages))). split.
    + rewrite (process_results_pages _ _ _ _ Hd Hne).
      by rewrite (for_pages_filtered _ _ _ _ _ Hall).
    + repeat split; reflexivity.
Qed.

Lemma filtered_pages_placeholder_sample :
  let pages :=
    [page_entry 0 (lit "   ");
     PDict {[ lit "index" := PInt 1 ]};
     PDict {[ lit "markdown" := PStr (lit "text"); lit "index" := PNone ]}] in
  Forall (filtered_out str_scalar) pages
  ∧ ∃ doc,
      _process_results str_scalar sample_loader (ocr_pages pages) = Ok [doc]
      ∧ page_content doc = lit "No valid text content found in document"
      ∧ metadata doc =
          {[ lit "error" := PStr (lit "no_valid_pages");
             lit "total_pages" := PInt 3;
             lit "file_name" := PStr (lit "report.pdf") ]}.
Proof.
  intros pages.
  assert (Hall : Forall (filtered_out str_scalar) pages).
  { repeat constructor.
    - eexists. split; [reflexivity |]. right. right. reflexivity.
    - eexists. split; [reflexivity |]. left. left. reflexivity.
    - eexists. split; [reflexivity |]. right. left. right. reflexivity. }
  split; [exact Hall |].
  destruct (filtered_pages_placeholder str_scalar sample_loader) as (_ & _ & Hmap).
  assert (Hd : ({[ lit "pages" := PList pages ]} : gmap pystr pyval) !! lit "pages"
               = Some (PList pages)) by reflexivity.
  assert (Hne : pages ≠ []) by done.
  destruct (Hmap _ pages Hd Hne Hall) as (doc & Hdoc & Hc & Hm & _).
  exists doc. split; [exact Hdoc |]. split; [exact Hc | exact Hm].
Defined.

(** C6, as stated, fails for a status that is neither 2xx nor 4xx/5xx:
    [raise_for_status] lets the status 300 pass, the body is decoded and
    mapped, and [load] returns the document of the page, without [error]. *)
Lemma status_300_is_mapped :
  requests_post (answering multiple_choices)
      (ocr_request sample_loader [x25; x50; x44; x46]) = Ok multiple_choices
  ∧ ¬ (200 ≤ status_code multiple_choices < 300)
  ∧ run (load str_scalar sample_loader (answering multiple_choices))
      = Ok [page_document sample_loader (lit "Hello") (PInt 0) (PInt 1) 1]
  ∧ metadata (page_document sample_loader (lit "Hello") (PInt 0) (PInt 1) 1)
      !! lit "error" = None.
Proof.
  split; [reflexivity |]. split; [simpl; lia |]. split; reflexivity.
Qed.

(** C6 (amended): when a step of [load] before the result mapping fails
    (the file cannot be read, the request raises for a network failure or a
    timeout, the answer has a status from 400 to 599, or its body is no
    JSON), [load] returns exactly one document; its metadata has [error] =
    "processing_failed" and [file_name] = the base name of the file, and its
    content is "Error during processing: " followed by the text of the
    exception.  [load] posts at most once: there is no retry. *)
Theorem failure_gives_processing_failed py_str self w err :
  fails_before_mapping self w err →
  ∃ doc,
    run (load py_str self w) = Ok [doc]
    ∧ metadata doc !! lit "error" = Some (PStr (lit "processing_failed"))
    ∧ metadata doc !! lit "file_name"
        = Some (PStr (posixpath.basename (file_path self)))
    ∧ page_content doc = lit "Error during processing: " ++ exn_str err
    ∧ (posts (trace (load py_str self w)) ≤ 1)%nat.
Proof.
  intros Hfail. exists (processing_failed_document self err).
  split_and!; try reflexivity.
  - rewrite load_run.
    by rewrite (proj2 (load_body_raises py_str self w err) (or_introl Hfail)).
  - apply load_posts_once.
Qed.

Lemma failure_gives_processing_failed_500 :
  fails_before_mapping sample_loader (answering server_error) (http_error server_error)
  ∧ ∃ doc,
      run (load str_scalar sample_loader (answering server_error)) = Ok [doc]
      ∧ metadata doc !! lit "error" = Some (PStr (lit "processing_failed"))
      ∧ metadata doc !! lit "file_name" = Some (PStr (lit "report.pdf"))
      ∧ page_content doc =
          lit "Error during processing: 500 Server Error: Internal Server Error for url: https://ocr.example.com/providers/mistral/azure/ocr"
      ∧ (posts (trace (load str_scalar sample_loader (answering server_error))) ≤ 1)%nat.
Proof.
  assert (H : fails_before_mapping sample_loader (answering server_error)
                (http_error server_error)).
  { apply (status_fails _ _ [x25; x50; x44; x46]); [reflexivity | reflexivity |].
    simpl. lia. }
  split; [exact H |].
  exact (failure_gives_processing_failed str_scalar sample_loader
           (answering server_error) (http_error server_error) H).
Defined.

(** C7: every document [load] returns, and every document the mapping
    returns, has in its metadata the [file_name] that is the base name of
    the path of the loader: what follows the last slash of the path. *)
Theorem file_name_is_basename py_str self :
  (∀ w, ∃ docs,
     run (load py_str self w) = Ok docs
     ∧ Forall (λ doc, metadata doc !! lit "file_name"
                 = Some (PStr (posixpath.basename (file_path self)))) docs)
  ∧ (∀ ocr_response docs,
       _process_results py_str self ocr_response = Ok docs →
       Forall (λ doc, metadata doc !! lit "file_name"
                 = Some (PStr (posixpath.basename (file_path self)))) docs)
  ∧ (∃ dir, file_path self = dir ++ posixpath.basename (file_path self)
       ∧ (slash ∉ posixpath.basename (file_path self))
       ∧ (dir = [] ∨ last dir = Some slash)).
Proof.
  assert (Hmap : ∀ ocr_response docs,
    _process_results py_str self ocr_response = Ok docs →
    Forall (λ doc, metadata doc !! lit "file_name"
              = Some (PStr (posixpath.basename (file_path self)))) docs).
  { intros r docs [-> | [[total ->] | [_ Hall]]]%process_results_Ok.
    - by repeat constructor.
    - by repeat constructor.
    - eapply Forall_impl; [exact Hall |].
      by intros doc (md & idx & label & total & -> & _). }
  split_and!; [| exact Hmap | apply basename_spec].
  intros w. destruct (load_cases py_str self w) as (docs & Hrun & [[r Hr] | [err ->]]).
  - exists docs. split; [done |]. by eapply Hmap.
  - eexists. split; [done |]. by repeat constructor.
Qed.

Lemma file_name_is_basename_sample :
  _process_results str_scalar sample_loader
      (ocr_pages [page_entry 0 (lit "Hello")])
    = Ok [page_document sample_loader (lit "Hello") (PInt 0) (PInt 1) 1]
  ∧ Forall (λ doc, metadata doc !! lit "file_name" = Some (PStr (lit "report.pdf")))
      [page_document sample_loader (lit "Hello") (PInt 0) (PInt 1) 1].
Proof.
  assert (H : _process_results str_scalar sample_loader
                (ocr_pages [page_entry 0 (lit "Hello")])
              = Ok [page_document sample_loader (lit "Hello") (PInt 0) (PInt 1) 1])
    by reflexivity.
  split; [exact H |].
  destruct (file_name_is_basename str_scalar sample_loader) as (_ & Hmap & _).
  exact (Hmap _ _ H).
Defined.

Section Ordering.
Variable py_str : pyval → pystr.
Variable self : AzureMistralLoader.

Lemma page_documents_all docs :
  Forall (is_page_document py_str self) docs → page_documents docs = docs.
Proof.
  unfold page_documents. induction 1 as [|doc docs Hdoc _ IH]; [done |].
  destruct Hdoc as (md & idx & label & total & -> & _).
  rewrite filter_cons_True by apply page_document_not_placeholder.
  by rewrite IH.
Qed.

(** The entries for which the loop body returns a document form a
    subsequence of the list, matched in order by the documents. *)
Lemma kept_entries_sublist total (pages : list pyval) outs :
  Forall2 (λ entry out, process_page py_str self total entry = Ok out) pages outs →
  ∃ kept, sublist kept pages
    ∧ Forall2 (λ entry doc, process_page py_str self total entry = Ok (Some doc))
        kept (omap id outs).
Proof.
  induction 1 as [|entry out pages outs Hp _ (kept & Hsub & Hkept)].
  - exists []. split; [done | constructor].
  - destruct out as [doc|]; simpl.
    + exists (entry :: kept). split; [by apply sublist_skip | by constructor].
    + exists kept. split; [by apply sublist_cons | done].
Qed.

End Ordering.

(** C8: the list [documents] that the loop of the mapping builds holds the
    documents of the entries that are kept, in the order in which these
    entries stand in [pages]: the loop body gives each entry a document or
    none ([outs]), and [documents] lists those of [outs] from left to right.
    The kept entries are a subsequence of [pages]; nothing is sorted, by
    index or otherwise.  The mapping returns [documents] as it is, unless it
    is empty; the documents of pages it returns are always those of
    [documents]. *)
Theorem documents_follow_page_order py_str self d pages docs :
  d !! lit "pages" = Some (PList pages) →
  _process_results py_str self (PDict d) = Ok docs →
  ∃ (outs : list (option Document)) (documents : list Document),
    Forall2 (λ entry out,
               process_page py_str self (Z.of_nat (length pages)) entry = Ok out)
      pages outs
    ∧ for_pages py_str self (Z.of_nat (length pages)) pages [] = Ok documents
    ∧ documents = omap id outs
    ∧ page_documents docs = documents
    ∧ (documents ≠ [] → docs = documents)
    ∧ ∃ kept, sublist kept pages
        ∧ Forall2 (λ entry doc,
                     process_page py_str self (Z.of_nat (length pages)) entry
                     = Ok (Some doc))
            kept documents.
Proof.
  intros Hd Hdocs.
  assert (∃ documents,
    for_pages py_str self (Z.of_nat (length pages)) pages [] = Ok documents
    ∧ page_documents docs = documents
    ∧ (documents ≠ [] → docs = documents)) as (documents & Hfor & Hpd & Hne).
  { destruct pages as [|entry rest].
    - rewrite process_results_no_pages in Hdocs by (by rewrite Hd).
      injection Hdocs as <-. exists []. by repeat split.
    - rewrite (process_results_pages _ _ _ _ Hd) in Hdocs by done.
      destruct (for_pages py_str self _ (entry :: rest) []) as [documents|] eqn:Hfor;
        [| done].
      exists documents. split; [done |]. case_bool_decide as Hempty.
      + injection Hdocs as <-. by rewrite Hempty.
      + injection Hdocs as <-. split; [| done].
        eapply page_documents_all, for_pages_documents, Hfor. }
  destruct (proj1 (for_pages_spec _ _ _ _ _) Hfor) as (outs & Hall & Houts).
  exists outs, documents. split_and!; [done | done | done | done | done |].
  rewrite Houts. by eapply kept_entries_sublist.
Qed.

Lemma documents_follow_page_order_unsorted :
  let pages :=
    [page_entry 2 (lit "third"); page_entry 0 (lit "  "); page_entry 0 (lit "first");
     page_entry 2 (lit "third again")] in
  let docs :=
    [page_document sample_loader (lit "third") (PInt 2) (PInt 3) 4;
     page_document sample_loader (lit "first") (PInt 0) (PInt 1) 4;
     page_document sample_loader (lit "third again") (PInt 2) (PInt 3) 4] in
  _process_results str_scalar sample_loader (ocr_pages pages) = Ok docs
  ∧ ∃ (outs : list (option Document)) (documents : list Document),
      Forall2 (λ entry out, process_page str_scalar sample_loader 4 entry = Ok out)
        pages outs
      ∧ for_pages str_scalar sample_loader 4 pages [] = Ok documents
      ∧ documents = omap id outs
      ∧ page_documents docs = documents
      ∧ (documents ≠ [] → docs = documents)
      ∧ ∃ kept, sublist kept pages
          ∧ Forall2 (λ entry doc,
                       process_page str_scalar sample_loader 4 entry = Ok (Some doc))
              kept documents.
Proof.
  intros pages docs.
  assert (H : _process_results str_scalar sample_loader (ocr_pages pages) = Ok docs)
    by reflexivity.
  split; [exact H |].
  assert (Hd : ({[ lit "pages" := PList pages ]} : gmap pystr pyval) !! lit "pages"
               = Some (PList pages)) by reflexivity.
  exact (documents_follow_page_order str_scalar sample_loader _ pages docs Hd H).
Defined.

Section Skipping.
Variable py_str : pyval → pystr.
Variable self : AzureMistralLoader.

(** The loop body skips an object exactly when its [markdown] or [index] is
    missing or [null], or its text trims to the empty string. *)
Lemma process_page_skips total e :
  process_page py_str self total (PDict e) = Ok None ↔
  filtered_out py_str (PDict e).
Proof.
  split; [| apply process_page_filtered].
  rewrite process_page_dict. simpl. intros Hp. exists e. split; [done |].
  unfold absent.
  destruct (e !! lit "markdown") as [md|]; [| by auto].
  destruct (e !! lit "index") as [idx|]; [| by auto]. simpl in *.
  destruct md; simpl in Hp; try (by auto); destruct idx; simpl in Hp;
    try (by auto); case_bool_decide; try (by auto); try discriminate Hp;
    by destruct (Py.add_one _).
Qed.

Lemma stripped_not_str md :
  (∀ s, md ≠ PStr s) → stripped py_str md = strip (py_str md).
Proof. intros Hmd. destruct md; try done. by destruct (Hmd s). Qed.

End Skipping.

(** C9, as stated, fails for an entry whose [index] is present and not
    [null] but is no number: with the markdown 2024 (present, not [null], not
    a string, trimmed text "2024") and the index "0", [index + 1] raises a
    [TypeError], and the mapping emits no document for the entry: it raises. *)
Lemma non_string_markdown_with_string_index_raises :
  let e : gmap pystr pyval :=
    {[ lit "index" := PStr (lit "0"); lit "markdown" := PInt 2024 ]} in
  let err := Exn TypeError
               (lit "can only concatenate str (not " ++ [0x22%N] ++ lit "int"
                ++ [0x22%N] ++ lit ") to str") in
  e !! lit "markdown" = Some (PInt 2024)
  ∧ e !! lit "index" = Some (PStr (lit "0"))
  ∧ strip (str_scalar (PInt 2024)) = lit "2024"
  ∧ process_page str_scalar sample_loader 1 (PDict e) = Raise err
  ∧ _process_results str_scalar sample_loader (ocr_pages [PDict e]) = Raise err.
Proof. repeat split; reflexivity. Qed.

(** C9 (amended): an entry whose [markdown] is present, not [null] and not a
    string, and whose [index] is a number (an integer, a boolean or a
    float), is not skipped for its markdown: its text is [str(markdown)],
    trimmed.  The entry is skipped exactly when that text is empty;
    otherwise the loop appends a document whose content is the trimmed text
    and whose [content_length] is its length.  An object is skipped only for
    a missing or [null] [markdown] or [index], or for a text that trims to
    nothing. *)
Theorem non_string_markdown_is_converted py_str self total e md idx :
  e !! lit "markdown" = Some md → md ≠ PNone → (∀ s, md ≠ PStr s) →
  e !! lit "index" = Some idx → numeric idx = true →
  let text := strip (py_str md) in
  (process_page py_str self total (PDict e) = Ok None ↔ text = [])
  ∧ (text ≠ [] →
       ∃ label doc,
         Py.add_one idx = Ok label
         ∧ process_page py_str self total (PDict e) = Ok (Some doc)
         ∧ page_content doc = text
         ∧ metadata doc !! lit "page" = Some idx
         ∧ metadata doc !! lit "page_label" = Some label
         ∧ metadata doc !! lit "content_length"
             = Some (PInt (Z.of_nat (length text)))
         ∧ ∀ rest documents,
             for_pages py_str self total (PDict e :: rest) documents
             = for_pages py_str self total rest (documents ++ [doc]))
  ∧ (∀ e', process_page py_str self total (PDict e') = Ok None
           ↔ absent e' (lit "markdown") ∨ absent e' (lit "index")
             ∨ stripped py_str (default PNone (e' !! lit "markdown")) = []).
Proof.
  intros Hmd Hnone Hstr Hidx Hnum text.
  assert (Hadd : ∃ label, Py.add_one idx = Ok label)
    by (destruct idx; try discriminate Hnum; by eexists).
  destruct Hadd as [label Hadd].
  assert (Hp : process_page py_str self total (PDict e) =
    if bool_decide (text = []) then Ok None
    else Ok (Some (page_document self text idx label total))).
  { rewrite process_page_dict, Hmd, Hidx. simpl.
    rewrite (stripped_not_str py_str md Hstr), Hadd.
    by destruct md, idx. }
  split_and!.
  - rewrite Hp. by case_bool_decide.
  - intros Htext. exists label, (page_document self text idx label total).
    assert (Hdoc : process_page py_str self total (PDict e)
                   = Ok (Some (page_document self text idx label total))).
    { rewrite Hp. by rewrite bool_decide_false. }
    split_and!; try done.
    intros rest documents. simpl. by rewrite Hdoc.
  - intros e'. rewrite process_page_skips. unfold filtered_out. split.
    + by intros (? & [= <-] & ?).
    + intros ?. by exists e'.
Qed.

Lemma non_string_markdown_is_converted_number :
  let e : gmap pystr pyval := {[ lit "index" := PInt 0; lit "markdown" := PInt 2024 ]} in
  ∃ label doc,
    Py.add_one (PInt 0) = Ok label
    ∧ process_page str_scalar sample_loader 1 (PDict e) = Ok (Some doc)
    ∧ page_content doc = lit "2024"
    ∧ metadata doc !! lit "page" = Some (PInt 0)
    ∧ metadata doc !! lit "page_label" = Some label
    ∧ metadata doc !! lit "content_length" = Some (PInt 4)
    ∧ _process_results str_scalar sample_loader (ocr_pages [PDict e]) = Ok [doc].
Proof.
  intros e.
  assert (Hmd : e !! lit "markdown" = Some (PInt 2024)) by reflexivity.
  assert (Hidx : e !! lit "index" = Some (PInt 0)) by reflexivity.
  assert (Hnone : PInt 2024 ≠ PNone) by discriminate.
  assert (Hstr : ∀ s, PInt 2024 ≠ PStr s) by discriminate.
  destruct (non_string_markdown_is_converted str_scalar sample_loader 1 e
              (PInt 2024) (PInt 0) Hmd Hnone Hstr Hidx eq_refl) as (_ & Hemit & _).
  assert (Htext : strip (str_scalar (PInt 2024)) ≠ []) by discriminate.
  destruct (Hemit Htext) as (label & doc & Hadd & Hp & Hc & Hpage & Hlabel & Hl & _).
  assert (Hdoc : doc = page_document sample_loader (lit "2024") (PInt 0) (PInt 1) 1).
  { assert (Hp' : process_page str_scalar sample_loader 1 (PDict e)
                  = Ok (Some (page_document sample_loader (lit "2024")
                                (PInt 0) (PInt 1) 1))) by reflexivity.
    rewrite Hp in Hp'. by injection Hp'. }
  exists label, doc. split_and!; try assumption.
  rewrite Hdoc. reflexivity.
Defined.

(** C10: no document has an empty content.  The document of a page has a
    content without white space at either end, and its [content_length] is
    the length of that content; a placeholder has one of the messages of the
    source, "No text content found", "No valid text content found in
    document", or "Error during processing: " followed by the text of the
    exception.  This holds for the documents of the mapping and for those of
    [load]. *)
Theorem content_never_empty py_str self :
  (∀ ocr_response docs,
     _process_results py_str self ocr_response = Ok docs →
     Forall content_well_formed docs)
  ∧ (∀ w, ∃ docs,
       run (load py_str self w) = Ok docs ∧ Forall content_well_formed docs).
Proof.
  assert (Hmap : ∀ ocr_response docs,
    _process_results py_str self ocr_response = Ok docs →
    Forall content_well_formed docs).
  { intros r docs [-> | [[total ->] | [_ Hall]]]%process_results_Ok.
    - apply Forall_singleton. split_and!; [done | intros [=] |]. intros _. by left.
    - apply Forall_singleton. split_and!; [done | intros [=] |]. intros _. right. by left.
    - eapply Forall_impl; [exact Hall |].
      intros doc (md & idx & label & total & -> & Hne & _). split_and!.
      + done.
      + intros _. split; [| reflexivity]. simpl.
        destruct md; apply strip_trimmed.
      + by rewrite page_document_not_placeholder. }
  split; [exact Hmap |].
  intros w. destruct (load_cases py_str self w) as (docs & Hrun & [[r Hr] | [err ->]]).
  - exists docs. split; [done |]. by eapply Hmap.
  - eexists. split; [done |].
    apply Forall_singleton. split_and!; [done | intros [=] |].
    intros _. right. right. by eexists.
Qed.

Lemma content_never_empty_sample :
  _process_results str_scalar sample_loader
      (ocr_pages [page_entry 0 (lit "  Hello ")])
    = Ok [page_document sample_loader (lit "Hello") (PInt 0) (PInt 1) 1]
  ∧ Forall content_well_formed
      [page_document sample_loader (lit "Hello") (PInt 0) (PInt 1) 1].
Proof.
  assert (H : _process_results str_scalar sample_loader
                (ocr_pages [page_entry 0 (lit "  Hello ")])
              = Ok [page_document sample_loader (lit "Hello") (PInt 0) (PInt 1) 1])
    by reflexivity.
  split; [exact H |].
  destruct (content_never_empty str_scalar sample_loader) as [Hmap _].
  exact (Hmap _ _ H).
Defined.

(* ================================================================== *)
(** * Further properties of the code *)

(** ** Stripping *)

Section StripMore.
Variable drop : N → bool.

Lemma lstrip_by_app_dropped pre s :
  Forall (λ c, drop c = true) pre → lstrip_by drop (pre ++ s) = lstrip_by drop s.
Proof. induction 1 as [|c pre Hc _ IH]; simpl; [done |]. by rewrite Hc. Qed.

Lemma rstrip_by_app_dropped s post :
  Forall (λ c, drop c = true) post → rstrip_by drop (s ++ post) = rstrip_by drop s.
Proof.
  intros Hpost. unfold rstrip_by.
  rewrite reverse_app, lstrip_by_app_dropped; [done |]. by apply Forall_reverse.
Qed.

Lemma lstrip_by_kept s :
  (∀ c, head s = Some c → drop c = false) → lstrip_by drop s = s.
Proof. destruct s as [|c s]; simpl; [done |]. intros H. by rewrite (H c). Qed.

Lemma rstrip_by_kept s :
  (∀ c, last s = Some c → drop c = false) → rstrip_by drop s = s.
Proof.
  intros H. unfold rstrip_by. rewrite lstrip_by_kept.
  - apply reverse_involutive.
  - intros c. rewrite head_reverse. apply H.
Qed.

Lemma rstrip_by_all_dropped s :
  Forall (λ c, drop c = true) s → rstrip_by drop s = [].
Proof.
  intros Hs. rewrite <- (app_nil_l s). by rewrite rstrip_by_app_dropped.
Qed.

Lemma lstrip_by_length s : (length (lstrip_by drop s) ≤ length s)%nat.
Proof. induction s as [|c s IH]; simpl; [done |]. destruct (drop c); simpl; lia. Qed.

Lemma strip_by_length s : (length (strip_by drop s) ≤ length s)%nat.
Proof.
  unfold strip_by, rstrip_by. rewrite length_reverse.
  etrans; [apply lstrip_by_length |]. rewrite length_reverse.
  apply lstrip_by_length.
Qed.

Lemma strip_by_padded pre s post :
  Forall (λ c, drop c = true) pre → Forall (λ c, drop c = true) post →
  strip_by drop (pre ++ s ++ post) = strip_by drop s.
Proof.
  intros Hpre Hpost. unfold strip_by. rewrite (lstrip_by_app_dropped _ _ Hpre).
  destruct (lstrip_by_split drop s) as (pre' & Hs & Hpre').
  destruct (decide (lstrip_by drop s = [])) as [Hnil | Hne].
  - rewrite Hnil in Hs. rewrite (right_id_L [] (++)) in Hs. subst pre'.
    rewrite lstrip_by_app_dropped by done. rewrite Hnil.
    transitivity (@nil N); [| done].
    apply rstrip_by_all_dropped.
    destruct (lstrip_by_split drop post) as (q & Hq & _).
    rewrite Hq in Hpost. by apply Forall_app in Hpost as [_ ?].
  - assert (Hl : lstrip_by drop (s ++ post) = lstrip_by drop s ++ post).
    { rewrite Hs at 1. rewrite <- (assoc_L (++)), (lstrip_by_app_dropped _ _ Hpre').
      destruct (lstrip_by drop s) as [|c t] eqn:Ht; [done |].
      assert (Hc : drop c = false) by (apply (lstrip_by_head drop s); by rewrite Ht).
      simpl. by rewrite Hc. }
    rewrite Hl. by apply rstrip_by_app_dropped.
Qed.

Lemma strip_by_idempotent s : strip_by drop (strip_by drop s) = strip_by drop s.
Proof.
  unfold strip_by at 1. rewrite lstrip_by_kept by apply strip_by_head.
  apply rstrip_by_kept, strip_by_last.
Qed.

End StripMore.

(** ** Construction *)

(** X1: [__init__] checks in the order key, endpoint, file.  An empty key
    gives the [ValueError] of the key whatever the other arguments are, and
    an empty endpoint (with a key) the [ValueError] of the endpoint; in both
    cases the file system is not consulted.  With a key and an endpoint,
    [os.path.exists] is called exactly once, on the path as given, and a
    missing file gives a [FileNotFoundError] whose message ends with that
    path. *)
Theorem init_checks_in_order w key ep path opt_model opt_timeout opt_images :
  let init := __init__ w key ep path opt_model opt_timeout opt_images in
  (key = [] →
     run init = Raise (Exn ValueError (lit "API key cannot be empty."))
     ∧ trace init = [])
  ∧ (key ≠ [] → ep = [] →
       run init
         = Raise (Exn ValueError (lit "Azure Mistral OCR endpoint cannot be empty."))
       ∧ trace init = [])
  ∧ (key ≠ [] → ep ≠ [] →
       trace init = [PathExists path]
       ∧ (os_path_exists w path = false →
            run init
              = Raise (Exn FileNotFoundError (lit "File not found at " ++ path)))).
Proof.
  unfold __init__, run, trace. simpl. split_and!.
  - intros ->. by rewrite bool_decide_true.
  - intros Hkey ->. rewrite bool_decide_false by done. by rewrite bool_decide_true.
  - intros Hkey Hep. rewrite !bool_decide_false by done.
    unfold mbind, io_bind, path_exists, raise, mret, io_ret. simpl.
    destruct (os_path_exists w path); simpl; by split.
Qed.

Lemma init_checks_in_order_empty_disk :
  run (__init__ empty_disk [] [] sample_path None None None)
    = Raise (Exn ValueError (lit "API key cannot be empty."))
  ∧ trace (__init__ empty_disk [] [] sample_path None None None) = []
  ∧ run (__init__ empty_disk (lit "secret") (lit "https://ocr.example.com")
           sample_path None None None)
    = Raise (Exn FileNotFoundError (lit "File not found at /data/uploads/report.pdf")).
Proof.
  destruct (init_checks_in_order empty_disk [] [] sample_path None None None)
    as (Hkey & _ & _).
  destruct (Hkey eq_refl) as [Hrun Htrace].
  split; [exact Hrun |]. split; [exact Htrace |].
  destruct (init_checks_in_order empty_disk (lit "secret")
              (lit "https://ocr.example.com") sample_path None None None)
    as (_ & _ & Hfile).
  assert (Hk : lit "secret" ≠ []) by discriminate.
  assert (He : lit "https://ocr.example.com" ≠ []) by discriminate.
  destruct (Hfile Hk He) as [_ Hmissing]. exact (Hmissing eq_refl).
Defined.

(** X2: an endpoint made of slashes only is not empty, so that it passes the
    check of [__init__]; it is stored as the empty string, and the URL [load]
    posts to is then the bare path "/providers/mistral/azure/ocr", without a
    host. *)
Theorem slash_only_endpoint_is_stored_empty
    w key ep path opt_model opt_timeout opt_images :
  key ≠ [] → ep ≠ [] → Forall (λ c, c = slash) ep →
  os_path_exists w path = true →
  ∃ self,
    run (__init__ w key ep path opt_model opt_timeout opt_images) = Ok self
    ∧ endpoint self = []
    ∧ ∀ file_bytes,
        req_url (ocr_request self file_bytes) = lit "/providers/mistral/azure/ocr".
Proof.
  intros Hkey Hep Hall Hpath. unfold __init__, run. simpl.
  rewrite !bool_decide_false by done.
  unfold mbind, io_bind, path_exists, raise, mret, io_ret. simpl.
  rewrite Hpath. simpl. eexists. split; [done |].
  assert (Hnil : rstrip_slash ep = []).
  { apply rstrip_by_all_dropped. eapply Forall_impl; [exact Hall |].
    intros c ->. reflexivity. }
  split; simpl; [done |]. intros file_bytes. unfold ocr_request. simpl.
  by rewrite Hnil.
Qed.

Lemma slash_only_endpoint_is_stored_empty_sample :
  Forall (λ c, c = slash) (lit "//")
  ∧ ∃ self,
      run (__init__ unreachable (lit "secret") (lit "//") sample_path None None None)
        = Ok self
      ∧ endpoint self = []
      ∧ ∀ file_bytes,
          req_url (ocr_request self file_bytes) = lit "/providers/mistral/azure/ocr".
Proof.
  assert (Hall : Forall (λ c, c = slash) (lit "//")) by (repeat constructor).
  split; [exact Hall |].
  assert (Hk : lit "secret" ≠ []) by discriminate.
  assert (He : lit "//" ≠ []) by discriminate.
  exact (slash_only_endpoint_is_stored_empty unreachable (lit "secret") (lit "//")
           sample_path None None None Hk He Hall eq_refl).
Defined.

(** X3: trailing slashes of the endpoint do not matter: an endpoint that is
    not empty and the same endpoint followed by any number of slashes give
    the same outcome of [__init__], the same loader when it succeeds. *)
Theorem trailing_slashes_do_not_matter
    w key ep path opt_model opt_timeout opt_images (k : nat) :
  ep ≠ [] →
  run (__init__ w key (ep ++ replicate k slash) path opt_model opt_timeout opt_images)
  = run (__init__ w key ep path opt_model opt_timeout opt_images).
Proof.
  intros Hep. unfold __init__, run. simpl.
  case_bool_decide; [done |].
  rewrite (bool_decide_false (ep = [])) by done.
  rewrite (bool_decide_false (ep ++ replicate k slash = []))
    by (intros [? _]%app_eq_nil; done).
  unfold mbind, io_bind, path_exists, raise, mret, io_ret. simpl.
  destruct (os_path_exists w path); simpl; [| done].
  unfold rstrip_slash. rewrite rstrip_by_app_dropped; [done |].
  apply Forall_replicate. reflexivity.
Qed.

Lemma trailing_slashes_do_not_matter_sample :
  run (__init__ unreachable (lit "secret") (lit "https://ocr.example.com///")
         sample_path None None None)
  = Ok sample_loader.
Proof.
  assert (He : lit "https://ocr.example.com" ≠ []) by discriminate.
  exact (trailing_slashes_do_not_matter unreachable (lit "secret")
           (lit "https://ocr.example.com") sample_path None None None 3 He).
Defined.

(** ** The request *)

Section Base64Facts.

Lemma digit_ascii n : (base64.digit n < 128)%N.
Proof.
  unfold base64.digit.
  assert (Hall : Forall (λ c, (c < 128)%N) base64.alphabet)
    by (apply Forall_forall; intros c Hc; vm_compute in Hc;
        repeat (apply elem_of_cons in Hc as [-> | Hc]; [done |]);
        by apply elem_of_nil in Hc).
  destruct (base64.alphabet !! N.to_nat n) as [c|] eqn:Hc; simpl; [| done].
  by eapply (proj1 (Forall_lookup _ _) Hall).
Qed.

Lemma group_ascii n : Forall (λ c, (c < 128)%N) (base64.group n).
Proof. unfold base64.group. repeat constructor; apply digit_ascii. Qed.

(** The encoding by groups of three bytes. *)
Lemma b64encode_ind (P : list byte → Prop) :
  P [] → (∀ a, P [a]) → (∀ a b, P [a; b]) →
  (∀ a b c rest, P rest → P (a :: b :: c :: rest)) →
  ∀ bs, P bs.
Proof.
  intros H0 H1 H2 H3 bs.
  assert (P bs ∧ (∀ a, P (a :: bs)) ∧ (∀ a b, P (a :: b :: bs))) as [? _];
    [| done].
  induction bs as [|x bs (IH0 & IH1 & IH2)]; [by split_and! |].
  split_and!; [apply IH1 | intros a; apply IH2 |].
  intros a b. by apply H3.
Qed.

Lemma b64encode_length bs :
  length (base64.b64encode bs) = (4 * ((length bs + 2) / 3))%nat.
Proof.
  induction bs as [| | |a b c rest IH] using b64encode_ind; try reflexivity.
  change (base64.b64encode (a :: b :: c :: rest))
    with (base64.group (Byte.to_N a * 65536 + Byte.to_N b * 256 + Byte.to_N c)
          ++ base64.b64encode rest).
  rewrite length_app, IH. simpl length.
  replace (S (S (S (length rest))) + 2)%nat with (1 * 3 + (length rest + 2))%nat by lia.
  rewrite Nat.div_add_l by done. lia.
Qed.

Lemma b64encode_ascii bs : Forall (λ c, (c < 128)%N) (base64.b64encode bs).
Proof.
  induction bs as [|a|a b|a b c rest IH] using b64encode_ind.
  - constructor.
  - simpl. repeat constructor; apply digit_ascii.
  - simpl. repeat constructor; apply digit_ascii.
  - change (base64.b64encode (a :: b :: c :: rest))
      with (base64.group (Byte.to_N a * 65536 + Byte.to_N b * 256 + Byte.to_N c)
            ++ base64.b64encode rest).
    apply Forall_app. split; [apply group_ascii | done].
Qed.

End Base64Facts.

(** The loader [__init__] returns. *)
Lemma init_fields w key ep path opt_model opt_timeout opt_images self :
  run (__init__ w key ep path opt_model opt_timeout opt_images) = Ok self →
  self = {| api_key := key;
            endpoint := rstrip_slash ep;
            file_path := path;
            model := default (lit "mistral-document-ai-2505") opt_model;
            timeout := default 300 opt_timeout;
            include_image_base64 := default false opt_images;
            headers :=
              {[ lit "Authorization" := lit "Bearer " ++ key;
                 lit "Content-Type" := lit "application/json";
                 lit "Accept" := lit "application/json";
                 lit "User-Agent" := lit "OpenWebUI-AzureMistralLoader/1.0" ]} |}.
Proof.
  unfold __init__, run. simpl.
  case_bool_decide; [done |]. case_bool_decide; [done |].
  unfold mbind, io_bind, path_exists, raise, mret, io_ret. simpl.
  destruct (os_path_exists w path); simpl; [| done]. by intros [= <-].
Qed.

(** X4: a loader built by [__init__], on a file that can be read, makes
    [load] read that file and then post exactly one request: to the endpoint
    given at construction, without its trailing slashes, followed by
    "/providers/mistral/azure/ocr"; with the four headers, of which
    [Authorization] is "Bearer " and the key; with the timeout and, in the
    body, the model and the image flag given at construction (300,
    "mistral-document-ai-2505" and [False] when left out). *)
Theorem load_sends_configured_request
    py_str w0 w key ep path opt_model opt_timeout opt_images self file_bytes :
  run (__init__ w0 key ep path opt_model opt_timeout opt_images) = Ok self →
  open_read w path = Ok file_bytes →
  ∃ req document,
    trace (load py_str self w) = [FileRead path; HttpPost req]
    ∧ req_url req = rstrip_slash ep ++ lit "/providers/mistral/azure/ocr"
    ∧ req_headers req =
        {[ lit "Authorization" := lit "Bearer " ++ key;
           lit "Content-Type" := lit "application/json";
           lit "Accept" := lit "application/json";
           lit "User-Agent" := lit "OpenWebUI-AzureMistralLoader/1.0" ]}
    ∧ req_timeout req = default 300 opt_timeout
    ∧ req_json req =
        PDict {[ lit "model"
                   := PStr (default (lit "mistral-document-ai-2505") opt_model);
                 lit "document" := document;
                 lit "include_image_base64"
                   := PBool (default false opt_images) ]}.
Proof.
  intros Hinit Hread.
  pose proof (init_fields w0 key ep path opt_model opt_timeout opt_images self Hinit)
    as ->.
  rewrite load_trace. simpl. rewrite Hread.
  eexists _, _. split; [reflexivity |]. by split_and!.
Qed.

Lemma load_sends_configured_request_sample :
  ∃ req document,
    trace (load str_scalar sample_loader (answering server_error))
      = [FileRead sample_path; HttpPost req]
    ∧ req_url req = lit "https://ocr.example.com/providers/mistral/azure/ocr"
    ∧ req_headers req =
        {[ lit "Authorization" := lit "Bearer secret";
           lit "Content-Type" := lit "application/json";
           lit "Accept" := lit "application/json";
           lit "User-Agent" := lit "OpenWebUI-AzureMistralLoader/1.0" ]}
    ∧ req_timeout req = 300
    ∧ req_json req =
        PDict {[ lit "model" := PStr (lit "mistral-document-ai-2505");
                 lit "document" := document;
                 lit "include_image_base64" := PBool false ]}.
Proof.
  assert (Hinit : run (__init__ unreachable (lit "secret")
                         (lit "https://ocr.example.com/") sample_path None None None)
                  = Ok sample_loader) by reflexivity.
  assert (Hread : open_read (answering server_error) sample_path
                  = Ok [x25; x50; x44; x46]) by reflexivity.
  exact (load_sends_configured_request str_scalar unreachable
           (answering server_error) (lit "secret") (lit "https://ocr.example.com/")
           sample_path None None None sample_loader [x25; x50; x44; x46]
           Hinit Hread).
Defined.

(** X5: when the file cannot be read, [load] makes no request at all: its
    only call to the environment is the attempt to read the file, and it
    returns the placeholder of the exception of that attempt. *)
Theorem unreadable_file_sends_nothing py_str self w err :
  open_read w (file_path self) = Raise err →
  trace (load py_str self w) = [FileRead (file_path self)]
  ∧ posts (trace (load py_str self w)) = 0%nat
  ∧ run (load py_str self w) = Ok [processing_failed_document self err].
Proof.
  intros Hread. rewrite load_trace, load_run, load_body_run, Hread. by split_and!.
Qed.

Lemma unreadable_file_sends_nothing_sample :
  let err := Exn FileNotFoundError (lit "[Errno 2] No such file or directory") in
  trace (load str_scalar sample_loader empty_disk) = [FileRead sample_path]
  ∧ posts (trace (load str_scalar sample_loader empty_disk)) = 0%nat
  ∧ run (load str_scalar sample_loader empty_disk)
      = Ok [processing_failed_document sample_loader err].
Proof.
  intros err.
  exact (unreadable_file_sends_nothing str_scalar sample_loader empty_disk err eq_refl).
Defined.

(** X6: the document [load] sends is a data URL that always announces
    "application/pdf", whatever the bytes and the name of the file: the
    prefix "data:application/pdf;base64," followed by the Base64 text of the
    bytes.  That text has 4 characters for every 3 bytes, rounded up, and is
    pure ASCII, so that decoding it as UTF-8 cannot fail. *)
Theorem document_is_pdf_data_url self file_bytes :
  ∃ fields data_url,
    req_json (ocr_request self file_bytes) = PDict fields
    ∧ fields !! lit "document"
        = Some (PDict {[ lit "type" := PStr (lit "document_url");
                         lit "document_url" := PStr data_url ]})
    ∧ data_url = lit "data:application/pdf;base64," ++ base64.b64encode file_bytes
    ∧ length data_url = (28 + 4 * ((length file_bytes + 2) / 3))%nat
    ∧ Forall (λ c, (c < 128)%N) data_url.
Proof.
  eexists _, _. split; [reflexivity |]. split; [reflexivity |].
  split; [reflexivity |]. split.
  - rewrite length_app, b64encode_length. reflexivity.
  - apply Forall_app. split; [| apply b64encode_ascii].
    apply Forall_forall. intros c Hc. vm_compute in Hc.
    repeat (apply elem_of_cons in Hc as [-> | Hc]; [done |]).
    by apply elem_of_nil in Hc.
Qed.

(** ** When the mapping raises *)

Section Raising.
Variable py_str : pyval → pystr.
Variable self : AzureMistralLoader.

Lemma add_one_numeric v : (∃ label, Py.add_one v = Ok label) ↔ numeric v = true.
Proof. destruct v; simpl; split; try done; try (by intros [? ?]); by eexists. Qed.

(** The loop body returns exactly for the accepted entries. *)
Lemma process_page_returns total entry :
  (∃ out, process_page py_str self total entry = Ok out) ↔
  entry_accepted py_str entry.
Proof.
  split.
  - intros [out Hout]. destruct entry as [| | | | | |e]; try discriminate Hout.
    exists e. split; [done |]. destruct out as [doc|].
    + right. apply process_page_Some in Hout
        as (e' & md & idx & label & [= <-] & _ & -> & _ & _ & _ & Hadd & _).
      simpl. apply add_one_numeric. by eexists.
    + left. exact (proj1 (process_page_skips py_str self total e) Hout).
  - intros (e & -> & [Hskip | Hnum]).
    + exists None. by apply process_page_filtered.
    + rewrite process_page_dict. simpl.
      destruct (Py.is_none _ || Py.is_none _); [by eexists |].
      destruct (bool_decide _); [by eexists |].
      apply add_one_numeric in Hnum as [label ->]. by eexists.
Qed.

(** The exceptions of the loop body. *)
Lemma process_page_raise_class total entry err :
  process_page py_str self total entry = Raise err →
  exn_type err = AttributeError ∨ exn_type err = TypeError.
Proof.
  destruct entry as [| | | | | |e]; try (intros [= <-]; by left).
  rewrite process_page_dict. simpl.
  destruct (Py.is_none _ || Py.is_none _); [done |].
  destruct (bool_decide _); [done |].
  destruct (default PNone (e !! lit "index")); simpl; try done;
    intros [= <-]; by right.
Qed.

Lemma for_pages_returns total pages :
  (∃ docs, for_pages py_str self total pages [] = Ok docs) ↔
  Forall (entry_accepted py_str) pages.
Proof.
  induction pages as [|entry rest IH].
  - split; [constructor | by eexists].
  - rewrite for_pages_cons, Forall_cons, <- IH, <- (process_page_returns total).
    destruct (process_page py_str self total entry) as [out|]; split.
    + intros [docs Hdocs]. split; [by eexists |].
      destruct (for_pages py_str self total rest []); [by eexists | done].
    + intros [_ [docs ->]]. by eexists.
    + by intros [? ?].
    + by intros [[? ?] _].
Qed.

Lemma for_pages_raise_class total pages err :
  for_pages py_str self total pages [] = Raise err →
  exn_type err = AttributeError ∨ exn_type err = TypeError.
Proof.
  induction pages as [|entry rest IH]; [done |].
  rewrite for_pages_cons.
  destruct (process_page py_str self total entry) as [out|err'] eqn:Hp.
  - destruct (for_pages py_str self total rest []); [done |].
    intros [= ->]. by apply IH.
  - intros [= ->]. by eapply process_page_raise_class.
Qed.

End Raising.

(** X7: the result mapping returns a list exactly when the response is an
    object whose [pages] is missing or tests false, or is a list of which
    every entry is an object that is either skipped or has a number (an
    integer, a boolean or a float) as [index].  In every other case (a
    response or an entry that is no object, a [pages] that is a number, a
    string or an object, a kept entry whose [index] is a string, a list or an
    object) it raises, an [AttributeError] or a [TypeError], and returns no
    document of the pages it had already gone through. *)
Theorem mapping_returns_iff py_str self ocr_response :
  ((∃ docs, _process_results py_str self ocr_response = Ok docs) ↔
   ∃ d, ocr_response = PDict d
     ∧ (pages_absent_or_empty d
        ∨ ∃ pages, d !! lit "pages" = Some (PList pages)
            ∧ Forall (entry_accepted py_str) pages))
  ∧ (∀ err, _process_results py_str self ocr_response = Raise err →
       exn_type err = AttributeError ∨ exn_type err = TypeError).
Proof.
  split.
  - split.
    + intros [docs Hdocs].
      destruct ocr_response as [| | | | | |d]; try discriminate Hdocs.
      exists d. split; [done |].
      destruct (d !! lit "pages") as [v|] eqn:Hv; [| left; by left].
      destruct (Py.truthy v) eqn:Htruthy; [| left; right; by exists v].
      right. unfold _process_results in Hdocs. unfold_result.
      rewrite Hv in Hdocs. simpl in Hdocs. rewrite Htruthy in Hdocs.
      simpl in Hdocs.
      destruct v as [| | | |s|l|d']; try discriminate Hdocs; simpl in Hdocs.
      * destruct s as [|c s]; [done |]. discriminate Hdocs.
      * exists l. split; [done |]. apply (for_pages_returns py_str self (Z.of_nat (length l))).
        destruct (for_pages py_str self _ l []) as [documents|]; [by eexists | done].
      * destruct (map_to_list d') as [|[k v] kvs] eqn:Hkvs; [| discriminate Hdocs].
        apply map_to_list_empty_iff in Hkvs as ->. done.
    + intros (d & -> & [Hempty | (pages & Hpages & Hall)]).
      * exists [no_pages_document self]. apply process_results_no_pages.
        destruct Hempty as [-> | (v & -> & Hv)]; done.
      * destruct pages as [|entry rest].
        { exists [no_pages_document self]. apply process_results_no_pages.
          by rewrite Hpages. }
        rewrite (process_results_pages _ _ _ _ Hpages) by done.
        apply (for_pages_returns py_str self (Z.of_nat (length (entry :: rest))))
          in Hall as [documents ->].
        case_bool_decide; by eexists.
  - intros err. unfold _process_results. unfold_result.
    destruct ocr_response as [| | | | | |d]; try (intros [= <-]; by left).
    simpl. destruct (Py.truthy _); simpl; [| done].
    destruct (default PNone (d !! lit "pages")) as [| | | |s|l|d'];
      simpl; try (intros [= <-]; by right).
    + destruct (for_pages py_str self _ _ []) as [documents|] eqn:Hfor.
      * by case_bool_decide.
      * intros [= <-]. by eapply for_pages_raise_class.
    + destruct (for_pages py_str self _ l []) as [documents|] eqn:Hfor.
      * by case_bool_decide.
      * intros [= <-]. by eapply for_pages_raise_class.
    + destruct (for_pages py_str self _ _ []) as [documents|] eqn:Hfor.
      * by case_bool_decide.
      * intros [= <-]. by eapply for_pages_raise_class.
Qed.

Lemma mapping_returns_iff_bad_index :
  let pages := [page_entry 0 (lit "first");
                PDict {[ lit "index" := PStr (lit "1");
                         lit "markdown" := PStr (lit "second") ]}] in
  let err := Exn TypeError
               (lit "can only concatenate str (not " ++ [0x22%N] ++ lit "int"
                ++ [0x22%N] ++ lit ") to str") in
  _process_results str_scalar sample_loader (ocr_pages pages) = Raise err
  ∧ (exn_type err = AttributeError ∨ exn_type err = TypeError).
Proof.
  intros pages err.
  assert (H : _process_results str_scalar sample_loader (ocr_pages pages) = Raise err)
    by reflexivity.
  split; [exact H |].
  destruct (mapping_returns_iff str_scalar sample_loader (ocr_pages pages))
    as [_ Hclass].
  exact (Hclass _ H).
Defined.

(** ** Counting and trimming *)

(** X8: [total_pages] counts the entries of the response, the skipped ones
    included, not the documents returned: when [pages] is a list that is not
    empty, every document the mapping returns (a page or the placeholder
    [no_valid_pages]) has [total_pages] = the length of [pages], and there
    are at most that many documents. *)
Theorem total_pages_counts_entries py_str self d pages docs :
  d !! lit "pages" = Some (PList pages) → pages ≠ [] →
  _process_results py_str self (PDict d) = Ok docs →
  (length docs ≤ length pages)%nat
  ∧ Forall (λ doc, metadata doc !! lit "total_pages"
              = Some (PInt (Z.of_nat (length pages)))) docs.
Proof.
  intros Hd Hne. rewrite (process_results_pages _ _ _ _ Hd Hne).
  generalize (Z.of_nat (length pages)). intros total.
  destruct (for_pages py_str self total pages []) as [documents|] eqn:Hfor; [| done].
  apply for_pages_spec in Hfor as (outs & Hall & ->).
  assert (Hlen : (length (omap id outs) ≤ length pages)%nat).
  { rewrite (Forall2_length _ _ _ Hall). clear Hall.
    induction outs as [|out outs IH]; [done |].
    destruct out as [doc|].
    - change (omap id (Some doc :: outs)) with (doc :: omap id outs). simpl. lia.
    - change (omap id (None :: outs)) with (omap id outs). simpl. lia. }
  case_bool_decide as Hempty; intros [= <-].
  - split; [destruct pages; simpl; [done | lia] |]. by repeat constructor.
  - split; [done |]. clear Hempty Hlen.
    clear Hd Hne.
    induction Hall as [|entry out rest outs Hp _ IH]; simpl; [constructor |].
    destruct out as [doc|]; simpl; [| done]. constructor; [| done].
    by apply process_page_Some
      in Hp as (? & ? & ? & ? & _ & _ & _ & _ & _ & _ & _ & ->).
Qed.

Lemma total_pages_counts_entries_sample :
  let pages := [page_entry 0 (lit " "); page_entry 1 (lit "kept");
                PDict {[ lit "index" := PInt 2 ]}] in
  _process_results str_scalar sample_loader (ocr_pages pages)
    = Ok [page_document sample_loader (lit "kept") (PInt 1) (PInt 2) 3]
  ∧ (length [page_document sample_loader (lit "kept") (PInt 1) (PInt 2) 3]
       ≤ length pages)%nat
  ∧ Forall (λ doc, metadata doc !! lit "total_pages" = Some (PInt 3))
      [page_document sample_loader (lit "kept") (PInt 1) (PInt 2) 3].
Proof.
  intros pages.
  assert (H : _process_results str_scalar sample_loader (ocr_pages pages)
              = Ok [page_document sample_loader (lit "kept") (PInt 1) (PInt 2) 3])
    by reflexivity.
  split; [exact H |].
  assert (Hd : ({[ lit "pages" := PList pages ]} : gmap pystr pyval) !! lit "pages"
               = Some (PList pages)) by reflexivity.
  assert (Hne : pages ≠ []) by discriminate.
  exact (total_pages_counts_entries str_scalar sample_loader _ pages _ Hd Hne H).
Defined.

(** X9: white space around the markdown of an entry does not show in the
    result: the entry with the markdown [s] and the entry with [s] between
    any white space give the same outcome of the loop body.  The content of
    the document of an entry is never longer than its markdown, and an entry
    whose markdown is that content gives the same document again. *)
Theorem surrounding_white_space_is_dropped py_str self total e s :
  e !! lit "markdown" = Some (PStr s) →
  (∀ pre post,
     Forall (λ c, unicode.isspace c = true) pre →
     Forall (λ c, unicode.isspace c = true) post →
     process_page py_str self total
       (PDict (<[lit "markdown" := PStr (pre ++ s ++ post)]> e))
     = process_page py_str self total (PDict e))
  ∧ (∀ doc,
       process_page py_str self total (PDict e) = Ok (Some doc) →
       page_content doc = strip s
       ∧ (length (page_content doc) ≤ length s)%nat
       ∧ process_page py_str self total
           (PDict (<[lit "markdown" := PStr (page_content doc)]> e))
         = Ok (Some doc)).
Proof.
  intros Hmd.
  assert (Hsame : ∀ s', strip s' = strip s →
    process_page py_str self total (PDict (<[lit "markdown" := PStr s']> e))
    = process_page py_str self total (PDict e)).
  { intros s' Hs'. rewrite !process_page_dict.
    rewrite lookup_insert_eq, lookup_insert_ne by done. rewrite Hmd. simpl.
    by rewrite Hs'. }
  split.
  - intros pre post Hpre Hpost. apply Hsame. by apply strip_by_padded.
  - intros doc Hdoc.
    pose proof Hdoc as Hdoc'. apply process_page_Some in Hdoc'
      as (e' & md & idx & label & [= <-] & Hmd' & _ & _ & _ & _ & _ & ->).
    rewrite Hmd in Hmd'. injection Hmd' as <-. simpl.
    split; [done |]. split; [apply strip_by_length |].
    rewrite Hsame; [done |]. apply strip_by_idempotent.
Qed.

Lemma surrounding_white_space_is_dropped_sample :
  let e : gmap pystr pyval :=
    {[ lit "index" := PInt 0; lit "markdown" := PStr (lit "Hello") ]} in
  process_page str_scalar sample_loader 1
    (PDict (<[lit "markdown" := PStr (lit "  " ++ lit "Hello" ++ [0x0A%N])]> e))
  = process_page str_scalar sample_loader 1 (PDict e).
Proof.
  intros e.
  assert (Hmd : e !! lit "markdown" = Some (PStr (lit "Hello"))) by reflexivity.
  destruct (surrounding_white_space_is_dropped str_scalar sample_loader 1 e
              (lit "Hello") Hmd) as [Hpad _].
  apply Hpad; repeat constructor.
Defined.

(** ** What the mapping reads and what it writes *)

Section Reading.
Variable py_str : pyval → pystr.
Variable self : AzureMistralLoader.



End Reading.



(** X11: the metadata of every document [load] returns has one of three
    sets of keys: for the document of a page the six keys [page],
    [page_label], [total_pages], [file_name], [processing_engine] and
    [content_length], with "mistral-ocr-azure" as engine; for the
    placeholders "no_pages" and "processing_failed" the keys [error] and
    [file_name]; for "no_valid_pages" these two and [total_pages].  A
    placeholder never names an engine, a page never has [error]. *)
Theorem metadata_has_one_of_three_shapes py_str self w :
  ∃ docs,
    run (load py_str self w) = Ok docs ∧ Forall metadata_shape docs.
Proof.
  destruct (load_cases py_str self w) as (docs & Hrun & [[r Hr] | [err ->]]).
  - exists docs. split; [done |].
    apply process_results_Ok in Hr as [-> | [[total ->] | [_ Hall]]].
    + apply Forall_singleton. right. left. split; [reflexivity | by left].
    + apply Forall_singleton. right. right. by split.
    + eapply Forall_impl; [exact Hall |].
      intros doc (md & idx & label & total & -> & _). left. by split.
  - eexists. split; [done |].
    apply Forall_singleton. right. left. split; [reflexivity | by right].
Qed.

(** ** After the answer *)

(** X12: once the server has answered with a status outside 400-599 (a
    status 2xx is not required) and a body that decodes, [load] returns
    exactly the documents the mapping gives for the decoded body, and the
    placeholder of the exception when the mapping raises; it has read the
    file once and posted once. *)
Theorem load_returns_the_mapping py_str self w file_bytes resp ocr_response :
  open_read w (file_path self) = Ok file_bytes →
  requests_post w (ocr_request self file_bytes) = Ok resp →
  ¬ (400 ≤ status_code resp < 600) →
  json resp = Ok ocr_response →
  run (load py_str self w) =
    match _process_results py_str self ocr_response with
    | Ok docs => Ok docs
    | Raise err => Ok [processing_failed_document self err]
    end
  ∧ trace (load py_str self w)
    = [FileRead (file_path self); HttpPost (ocr_request self file_bytes)].
Proof.
  intros Hread Hpost Hstatus Hjson. split.
  - rewrite load_run, load_body_run, Hread, Hpost, raise_for_status_spec, Hjson.
    by rewrite bool_decide_false.
  - by rewrite load_trace, Hread.
Qed.

Lemma load_returns_the_mapping_list_body :
  let resp := {| status_code := 200; reason := lit "OK";
                 url := lit "https://ocr.example.com/providers/mistral/azure/ocr";
                 json := Ok (PList []) |} in
  run (load str_scalar sample_loader (answering resp))
  = Ok [processing_failed_document sample_loader
          (Exn AttributeError (lit "'list' object has no attribute 'get'"))].
Proof.
  intros resp.
  assert (Hstatus : ¬ (400 ≤ status_code resp < 600)) by (simpl; lia).
  destruct (load_returns_the_mapping str_scalar sample_loader (answering resp)
              [x25; x50; x44; x46] resp (PList []) eq_refl eq_refl Hstatus eq_refl)
    as [Hrun _].
  exact Hrun.
Defined.
